(** * edgeai: the ATC message classification pipeline of [atc_logic.py]

  A shallow embedding of [ATCMessageProcessor]: prompt construction, the
  chat request with its failure classification, the tolerant tag parser and
  the pipeline that composes them, followed by the properties proved about
  them.

  Python text is modelled by [string]; a character is an [ascii], read as
  the code point of the same number (U+0000 to U+00FF).  Text with code
  points above U+00FF is outside the model; there [re.IGNORECASE] also
  takes U+017F for the letter S and U+0130, U+0131 for the letter I, which
  matters wherever a statement below speaks of the letter case of a tag.  Python values that
  flow through the pipeline (decoded JSON, dictionaries, [None]) are the
  inductive [pyval]; a [dict] keeps its insertion order.  The network is a
  [world]: how it answers, and the requests sent so far.  Logging is left
  out except where evaluating what is logged can raise.  The catalogue of
  [get_message_examples] is not embedded. *)

From Stdlib Require Import String Ascii List ZArith NArith Lia Bool Arith.
From Stdlib Require Import DecimalString Floats.
Import ListNotations.

Set Implicit Arguments.
Set Warnings "-register-all".
Open Scope string_scope.

(* ================================================================== *)
(** ** Python values *)

Module Py.

(** What [json] decoding and the code itself can produce. *)
Inductive pyval : Type :=
| PNone
| PBool (b : bool)
| PInt (z : Z)
| PFloat (f : float)
| PStr (s : string)
| PList (l : list pyval)
| PDict (d : list (string * pyval)).

Definition dict := list (string * pyval).

(** An exception, as the [except] clauses of the program see it: which of
    the two named classes it is an instance of, and [str(e)]. *)
Record exn := Exn {
  is_RequestException : bool;
  is_JSONDecodeError : bool;
  str_e : string
}.

(** A computation that may raise. *)
Definition raising (A : Type) := (exn + A)%type.

Definition ret {A} (a : A) : raising A := inr a.
Definition raise {A} (e : exn) : raising A := inl e.
Definition bind {A B} (m : raising A) (f : A -> raising B) : raising B :=
  match m with
  | inl e => inl e
  | inr a => f a
  end.

Definition nl : string := String "010"%char EmptyString.
Definition dquote : string := String "034"%char EmptyString.

(** The class name [type(v).__name__]. *)
Definition type_name (v : pyval) : string :=
  match v with
  | PNone => "NoneType"
  | PBool _ => "bool"
  | PInt _ => "int"
  | PFloat _ => "float"
  | PStr _ => "str"
  | PList _ => "list"
  | PDict _ => "dict"
  end.

(** Exceptions the interpreter raises; the wording is CPython 3.11's and
    nothing below depends on it. *)
Definition TypeError (msg : string) : exn := Exn false false msg.
Definition AttributeError (v : pyval) (attr : string) : exn :=
  Exn false false ("'" ++ type_name v ++ "' object has no attribute '" ++ attr ++ "'").

(** [bool(v)]. *)
Definition truthy (v : pyval) : bool :=
  match v with
  | PNone => false
  | PBool b => b
  | PInt z => negb (Z.eqb z 0)
  | PFloat f => negb (PrimFloat.eqb f 0%float)
  | PStr s => negb (String.eqb s "")
  | PList l => match l with [] => false | _ => true end
  | PDict d => match d with [] => false | _ => true end
  end.

(** [a or b]. *)
Definition py_or (a b : pyval) : pyval := if truthy a then a else b.

(** [str(n)] for an [int]. *)
Definition str_of_int (z : Z) : string := NilZero.string_of_int (Z.to_int z).

(** *** Text *)

(** [c.isspace()], which is also what [\s] matches in a [str] pattern. *)
Definition isspace (c : ascii) : bool :=
  let n := N_of_ascii c in
  ((9 <=? n) && (n <=? 13) || (28 <=? n) && (n <=? 32) || (n =? 133) || (n =? 160))%N.

(** Simple lower-casing of a code point below 256. *)
Definition tolower (c : ascii) : ascii :=
  let n := N_of_ascii c in
  if ((65 <=? n) && (n <=? 90) || (192 <=? n) && (n <=? 222) && negb (n =? 215))%N
  then ascii_of_N (n + 32) else c.

Fixpoint lstrip (s : string) : string :=
  match s with
  | String c s' => if isspace c then lstrip s' else s
  | EmptyString => EmptyString
  end.

Fixpoint rstrip (s : string) : string :=
  match s with
  | String c s' =>
      let r := rstrip s' in
      if isspace c && String.eqb r "" then "" else String c r
  | EmptyString => EmptyString
  end.

(** [s.strip()]. *)
Definition strip (s : string) : string := rstrip (lstrip s).

(** [s[i:]]. *)
Fixpoint drop (i : nat) (s : string) : string :=
  match i, s with
  | S i', String _ s' => drop i' s'
  | _, _ => s
  end.

(** [s[:n]]. *)
Fixpoint take (n : nat) (s : string) : string :=
  match n, s with
  | S n', String c s' => String c (take n' s')
  | _, _ => EmptyString
  end.

(** [s[a:b]] for [0 <= a], [0 <= b]. *)
Definition slice (a b : nat) (s : string) : string := take (b - a) (drop a s).

(** [s.startswith(p)]. *)
Fixpoint startswith (p s : string) : bool :=
  match p, s with
  | EmptyString, _ => true
  | String a p', String b s' => Ascii.eqb a b && startswith p' s'
  | String _ _, EmptyString => false
  end.

(** [needle in hay] for two [str]. *)
Fixpoint str_contains (needle hay : string) : bool :=
  startswith needle hay ||
  match hay with
  | String _ hay' => str_contains needle hay'
  | EmptyString => false
  end.

(** *** Dictionaries, in insertion order *)

Fixpoint dict_get (d : dict) (k : string) : option pyval :=
  match d with
  | [] => None
  | (k', v) :: d' => if String.eqb k' k then Some v else dict_get d' k
  end.

(** [d[k] = v]: an existing key keeps its place. *)
Fixpoint dict_set (d : dict) (k : string) (v : pyval) : dict :=
  match d with
  | [] => [(k, v)]
  | (k', v') :: d' =>
      if String.eqb k' k then (k', v) :: d' else (k', v') :: dict_set d' k v
  end.

Definition keys (d : dict) : list string := map fst d.

(** [d.get(k, default)] on any value: only a [dict] has the method. *)
Definition py_get (v : pyval) (k : string) (default : pyval) : raising pyval :=
  match v with
  | PDict d => ret (match dict_get d k with Some x => x | None => default end)
  | _ => raise (AttributeError v "get")
  end.

(** [list(v.keys())], kept only for what it raises. *)
Definition py_keys (v : pyval) : raising (list string) :=
  match v with
  | PDict d => ret (keys d)
  | _ => raise (AttributeError v "keys")
  end.

(** [len(v)]. *)
Definition py_len (v : pyval) : raising nat :=
  match v with
  | PStr s => ret (String.length s)
  | PList l => ret (List.length l)
  | PDict d => ret (List.length d)
  | _ => raise (TypeError ("object of type '" ++ type_name v ++ "' has no len()"))
  end.

(** [v[:n]]. *)
Definition py_prefix (v : pyval) (n : nat) : raising pyval :=
  match v with
  | PStr s => ret (PStr (take n s))
  | PList l => ret (PList (firstn n l))
  | PDict _ => raise (TypeError "unhashable type: 'slice'")
  | _ => raise (TypeError ("'" ++ type_name v ++ "' object is not subscriptable"))
  end.

(** [x == needle] for a [str] needle. *)
Definition eq_str (needle : string) (x : pyval) : bool :=
  match x with
  | PStr s => String.eqb s needle
  | _ => false
  end.

(** [needle in v] for a [str] needle. *)
Definition py_contains (needle : string) (v : pyval) : raising bool :=
  match v with
  | PStr s => ret (str_contains needle s)
  | PList l => ret (existsb (eq_str needle) l)
  | PDict d => ret (existsb (String.eqb needle) (keys d))
  | _ => raise (TypeError ("argument of type '" ++ type_name v ++ "' is not iterable"))
  end.

End Py.

Import Py.

Notation "x <- m ;; k" := (bind m (fun x => k))
(at level 61, m at next level, right associativity).
Notation "m ;;; k" := (bind m (fun _ => k))
(at level 61, right associativity).

(* ================================================================== *)
(** ** The fragment of [re] the parser uses *)

Module Re.

(** One-character items: a literal, [\s], and [.]. *)
Inductive charset := CsLit (c : ascii) | CsSpace | CsAny.

(** Patterns.  Only one-character items are quantified in this program:
    [Star] is the greedy [*], [PlusLazy] the reluctant [+?]; [Group] is a
    capturing group, [Alt] the alternation (a non-capturing group only
    brackets it), [Eps] the empty pattern. *)
Inductive regex :=
| Eps
| Chr (cs : charset)
| Eol
| Cat (r1 r2 : regex)
| Alt (r1 r2 : regex)
| Star (cs : charset)
| PlusLazy (cs : charset)
| Group (r : regex).

Record flags := Flags { IGNORECASE : bool; DOTALL : bool }.

Definition span := (nat * nat)%type.

(** A match object: [m.string], [m.span()] and the spans of the groups in
    the order they closed. *)
Record match_obj := Match { m_string : string; span0 : span; groups : list span }.

Definition in_charset (fl : flags) (cs : charset) (c : ascii) : bool :=
  match cs with
  | CsLit p =>
      if IGNORECASE fl then Ascii.eqb (tolower c) (tolower p) else Ascii.eqb c p
  | CsSpace => isspace c
  | CsAny => DOTALL fl || negb (Ascii.eqb c "010"%char)
  end.

(** [$] without [MULTILINE]: at the end, or before a newline that ends the
    text. *)
Definition at_end (s : string) : bool := String.eqb s "" || String.eqb s nl.

Section Engine.
Variable A : Type.

(** Greedy repetition: take as many as possible, give back one at a
    time while the continuation fails. *)
Fixpoint star_greedy (ok : ascii -> bool) (k : string -> nat -> option A)
         (s : string) (i : nat) : option A :=
  match s with
  | String c s' =>
      if ok c then
        match star_greedy ok k s' (S i) with
        | Some m => Some m
        | None => k s i
        end
      else k s i
  | EmptyString => k s i
  end.

(** Reluctant repetition: try the continuation first, take one more
    only when it fails. *)
Fixpoint star_lazy (ok : ascii -> bool) (k : string -> nat -> option A)
         (s : string) (i : nat) : option A :=
  match k s i with
  | Some m => Some m
  | None =>
      match s with
      | String c s' => if ok c then star_lazy ok k s' (S i) else None
      | EmptyString => None
      end
  end.

Definition plus_lazy (ok : ascii -> bool) (k : string -> nat -> option A)
           (s : string) (i : nat) : option A :=
  match s with
  | String c s' => if ok c then star_lazy ok k s' (S i) else None
  | EmptyString => None
  end.
End Engine.

Definition cont := string -> nat -> list span -> option match_obj.

(** The backtracking matcher: [s] is the text from position [i] on, [g]
    the groups closed so far, [k] what remains to be matched. *)
Fixpoint sre_match (fl : flags) (r : regex) (k : cont)
         (s : string) (i : nat) (g : list span) : option match_obj :=
  match r with
  | Eps => k s i g
  | Chr cs =>
      match s with
      | String c s' => if in_charset fl cs c then k s' (S i) g else None
      | EmptyString => None
      end
  | Eol => if at_end s then k s i g else None
  | Cat r1 r2 => sre_match fl r1 (sre_match fl r2 k) s i g
  | Alt r1 r2 =>
      match sre_match fl r1 k s i g with
      | Some m => Some m
      | None => sre_match fl r2 k s i g
      end
  | Star cs => star_greedy (in_charset fl cs) (fun s' i' => k s' i' g) s i
  | PlusLazy cs => plus_lazy (in_charset fl cs) (fun s' i' => k s' i' g) s i
  | Group r' => sre_match fl r' (fun s' i' g' => k s' i' (g' ++ [(i, i')])%list) s i g
  end.

Definition accept (text : string) (start : nat) : cont :=
  fun _ j g => Some (Match text (start, j) g).

(** Try every start position from [i] on, leftmost first; [s] is [text]
    from position [i] on. *)
Fixpoint search_from (fl : flags) (r : regex) (text s : string) (i : nat)
  : option match_obj :=
  match sre_match fl r (accept text i) s i [] with
  | Some m => Some m
  | None =>
      match s with
      | String _ s' => search_from fl r text s' (S i)
      | EmptyString => None
      end
  end.

(** [re.search(pattern, text, flags)] on a [str]. *)
Definition search (pattern : regex) (text : string) (fl : flags)
  : option match_obj :=
  search_from fl pattern text text 0.

(** [m.group(n)] for [n >= 1]. *)
Definition group (m : match_obj) (n : nat) : string :=
  match nth_error (groups m) (n - 1) with
  | Some (a, b) => slice a b (m_string m)
  | None => ""
  end.

(** A run of literal characters. *)
Fixpoint lit (s : string) : regex :=
  match s with
  | String c s' => Cat (Chr (CsLit c)) (lit s')
  | EmptyString => Eps
  end.

(** Concatenation of the items of a pattern, left to right. *)
Fixpoint seq (rs : list regex) : regex :=
  match rs with
  | [] => Eps
  | r :: rs' => Cat r (seq rs')
  end.

End Re.

(* ================================================================== *)
(** ** The HTTP client, as the program uses it *)

Module Requests.

(** The arguments of one [requests.post]. *)
Record request := Request {
  req_url : string;
  req_json : pyval;
  req_headers : list (string * string);
  req_timeout : Z
}.

(** A response object: [status_code], [text] and what [json()] does. *)
Record response := Response {
  status_code : Z;
  text : string;
  json : raising pyval
}.

(** The world outside: how the network answers a request given the requests
    sent before it, and the requests sent so far. *)
Record world := World {
  wire : list request -> request -> raising response;
  sent : list request
}.

(** A computation that may use the network. *)
Definition Net (A : Type) := world -> A * world.

Definition post (r : request) : Net (raising response) :=
  fun w => (wire w (sent w) r, World (wire w) (sent w ++ [r])%list).

End Requests.

Import Requests.

(* ================================================================== *)
(** ** [ATCMessageProcessor] *)

Record ATCMessageProcessor := Processor {
  ollama_url : string;
  model : string
}.

(** [__init__] with its default arguments. *)
Definition default_processor : ATCMessageProcessor :=
  Processor "http://127.0.0.1:11434/api/chat" "gemma3:4b".

(** [nl.join(lines)]. *)
Definition join_lines (lines : list string) : string := String.concat nl lines.

Definition generate_classification_prompt (message sender_type : string) : string :=
  let '(sender_instruction, response_instruction) :=
    if String.eqb sender_type "AUTO" then
      ("1. Determine if the message is from a PILOT or from ATC (Air Traffic Control). ATC messages often contain instructions, clearances, or information directed at an aircraft (e.g., 'cleared for takeoff', 'squawk 7700', 'contact tower'). Pilot messages are often read-backs of instructions, requests, or reports (e.g., 'ready for departure', 'requesting higher altitude', 'Mayday').",
       "4. Provide appropriate response (if from PILOT, give ATC response; if from ATC, give PILOT response)")
    else if String.eqb sender_type "PILOT" then
      ("1. This message is from a PILOT",
       "4. Provide appropriate ATC response to this pilot message")
    else
      ("1. This message is from ATC (Air Traffic Control)",
       "4. Provide appropriate PILOT response to this ATC message")
  in
  join_lines [
    "";
    "You are an ATC Message Classification System. Analyze this aviation communication message and classify it.";
    "";
    "Message: " ++ dquote ++ message ++ dquote;
    "Sender Type: " ++ sender_type;
    "";
    "Your task:";
    sender_instruction;
    "2. Classify the message type (EMERGENCY, NORMAL, WEATHER, TRAFFIC, etc.)";
    "3. Extract key information (aircraft ID, runway, altitude, etc.)";
    response_instruction;
    "";
    "PILOT RESPONSE FORMAT:";
    "ALways put flight number at the end while generating flight response.";
    "When generating a PILOT response, it must be a concise read-back of the key instruction. It should not be a long sentence.";
    "The flight number should come at end (this is must).";
    "If you do not know the answer just say COPY along with flight number.";
    "For example:";
    "";
    "- ATC: Airbus AI101 San Francisco Tower. Altimeter 2992 Make straight in.";
    "- PILOT: Fly straight in runway 28R Airbus AI101.";
    "- ATC: Cessna VT-YSU Approach Squawk 4307";
    "- PILOT: Squawk 4307 Cessna YSU";
    "- ATC: N300EP radio check";
    "- PILOT:N300EP 5 by 5";
    "- ATC: Boeing BA202 Altimeter 2992 departure to the west approved.";
    "- PILOT: Cleared for takeoff runway 28R";
    "- ATC: Delta 789, contact departure on 121.9.";
    "- PILOT: Copied Delta 789.";
    "- ATC: United 456, climb and maintain one zero thousand feet.";
    "- PILOT: Climbing to one zero thousand, United 456.";
    "- ATC: Southwest 123, turn right heading two five zero.";
    "- PILOT: Right heading two five zero, Southwest 123.";
    "- ATC: American 789, hold short of runway two eight right.";
    "- PILOT: Holding short two eight right, American 789.";
    "-ATC:N350KA you are off course Correct and resume own navigation";
    "-PILOT:Correcting and resuming own navigation N350KA";
    "-ATC:N750BG you are off course Correct and resume own navigation";
    "-PILOT:Correcting and resuming own navigation N750BG";
    "";
    "Respond in this exact format:";
    "SENDER: [PILOT/ATC]";
    "TYPE: [EMERGENCY/NORMAL/WEATHER/TRAFFIC/NAVIGATION/FUEL/RUNWAY/COMMUNICATION]";
    "AIRCRAFT: [Call sign if mentioned]";
    "DETAILS: [Brief description]";
    "RESPONSE: [Appropriate response - ATC response if sender is PILOT, PILOT response if sender is ATC]";
    ""
  ].

(** *** [call_ollama_api] *)

(** The body of the [try] once the request has been answered.  The logging
    statements are kept where evaluating their arguments can raise. *)
Definition on_response (response : response) : raising pyval :=
  if Z.eqb (status_code response) 200 then
    result <- json response ;;
    py_keys result ;;;
    message <- py_get result "message" (PDict []) ;;
    content <- py_get message "content" (PStr "") ;;
    py_len content ;;;
    py_prefix content 200 ;;;
    ret content
  else
    ret (PStr ("Error: HTTP " ++ str_of_int (status_code response) ++ " - " ++ text response)).

(** The three [except] clauses, tried in the order they are written. *)
Definition handle (body : raising pyval) : pyval :=
  match body with
  | inr v => v
  | inl e =>
      if is_RequestException e then PStr ("Connection Error: " ++ str_e e)
      else if is_JSONDecodeError e then PStr ("JSON Error: " ++ str_e e)
      else PStr ("Unexpected Error: " ++ str_e e)
  end.

Definition payload_of (self : ATCMessageProcessor) (prompt : string) : pyval :=
  PDict [("model", PStr (model self));
         ("messages", PList [PDict [("role", PStr "user"); ("content", PStr prompt)]]);
         ("stream", PBool false)].

Definition call_ollama_api (self : ATCMessageProcessor) (prompt : string) : Net pyval :=
  fun w =>
    let payload := payload_of self prompt in
    let (posted, w') :=
      post (Request (ollama_url self) payload
                    [("Content-Type", "application/json")] 30) w in
    (handle (response <- posted ;; on_response response), w').

(** *** [parse_response] *)

Definition defaults : dict :=
  [("sender", PStr "Unknown");
   ("type", PStr "Unknown");
   ("aircraft", PStr "Not specified");
   ("details", PStr "No details provided");
   ("response", PStr "No response generated")].

Definition newline : Re.regex := Re.Chr (Re.CsLit "010"%char).

(** The five patterns, in the order of the source. *)
Definition patterns : list (string * Re.regex) :=
  [("sender",
    Re.seq [Re.lit "SENDER:"; Re.Star Re.CsSpace; Re.Group (Re.PlusLazy Re.CsAny);
            Re.Alt newline Re.Eol]);
   ("type",
    Re.seq [Re.lit "TYPE:"; Re.Star Re.CsSpace; Re.Group (Re.PlusLazy Re.CsAny);
            Re.Alt newline Re.Eol]);
   ("aircraft",
    Re.seq [Re.lit "AIRCRAFT:"; Re.Star Re.CsSpace; Re.Group (Re.PlusLazy Re.CsAny);
            Re.Alt newline Re.Eol]);
   ("details",
    Re.seq [Re.lit "DETAILS:"; Re.Star Re.CsSpace; Re.Group (Re.PlusLazy Re.CsAny);
            Re.Alt newline (Re.Alt (Re.lit "RESPONSE:") Re.Eol)]);
   ("response",
    Re.seq [Re.lit "RESPONSE:"; Re.Star Re.CsSpace; Re.Group (Re.PlusLazy Re.CsAny);
            Re.Alt newline Re.Eol])].

(** [re.IGNORECASE | re.DOTALL]. *)
Definition parse_flags : Re.flags := Re.Flags true true.

(** [re.search] on any value: only text can be searched. *)
Definition re_search (pattern : Re.regex) (v : pyval) (fl : Re.flags)
  : raising (option Re.match_obj) :=
  match v with
  | PStr s => ret (Re.search pattern s fl)
  | _ => raise (TypeError ("expected string or bytes-like object, got '"
                           ++ type_name v ++ "'"))
  end.

(** The test that accepts a matched value. *)
Definition accepted (value : string) : bool :=
  negb (String.eqb value "")
  && negb (String.eqb value "[Not specified]")
  && negb (String.eqb value "N/A").

(** One turn of the loop over [patterns.items()]. *)
Definition extract (response : pyval) (parsed : dict) (item : string * Re.regex)
  : raising dict :=
  let (key, pattern) := item in
  found <- re_search pattern response parse_flags ;;
  match found with
  | Some m =>
      let value := strip (Re.group m 1) in
      if accepted value then ret (dict_set parsed key (PStr value)) else ret parsed
  | None => ret parsed
  end.

Fixpoint for_each (response : pyval) (items : list (string * Re.regex)) (parsed : dict)
  : raising dict :=
  match items with
  | [] => ret parsed
  | item :: items' =>
      parsed' <- extract response parsed item ;;
      for_each response items' parsed'
  end.

Definition parse_response (response : pyval) : raising dict :=
  (if truthy response then py_len response else ret 0) ;;;
  py_prefix response 500 ;;;
  let parsed := defaults in
  short <- (if negb (truthy response) then ret true else py_contains "Error:" response) ;;
  if short then
    ret (dict_set parsed "details" (py_or response (PStr "No response received")))
  else
    for_each response patterns parsed.

(** *** [classify_message] *)

Definition classify_message (self : ATCMessageProcessor) (message sender_type : string)
  : Net (raising pyval) :=
  fun w =>
    if negb (truthy (PStr (strip message))) then
      (ret (PDict [("success", PBool false);
                   ("error", PStr "Please enter a message to classify");
                   ("data", PDict [])]), w)
    else
      let prompt := generate_classification_prompt message sender_type in
      let (raw_response, w') := call_ollama_api self prompt w in
      match raw_response with
      | PNone =>
          (ret (PDict [("success", PBool false);
                       ("error", PStr "No response from Ollama API");
                       ("data", PDict [])]), w')
      | _ =>
          (parsed_data <- parse_response raw_response ;;
           ret (PDict [("success", PBool true);
                       ("error", PNone);
                       ("data", PDict parsed_data);
                       ("raw_response", raw_response)]), w')
      end.

(** *** Predicates the statements below use *)

(** Every character of [s] is white space (an empty text included). *)
Definition blank (s : string) : Prop :=
  forall i c, String.get i s = Some c -> isspace c = true.

(** [raw] contains [needle] somewhere. *)
Definition occurs_in (needle raw : string) : Prop :=
  exists pre suf, raw = pre ++ needle ++ suf.

(** [startswith], letter case ignored as [re.IGNORECASE] does. *)
Fixpoint istartswith (p s : string) : bool :=
  match p, s with
  | EmptyString, _ => true
  | String a p', String b s' => Ascii.eqb (tolower b) (tolower a) && istartswith p' s'
  | String _ _, EmptyString => false
  end.

(** Where the value of [DETAILS:] can end: at the end of the text, before a
    line break, or before a [RESPONSE:] tag. *)
Definition details_stop (rest : string) : bool :=
  String.eqb rest "" || startswith nl rest || istartswith "RESPONSE:" rest.

Definition details_pattern : Re.regex :=
  Re.seq [Re.lit "DETAILS:"; Re.Star Re.CsSpace; Re.Group (Re.PlusLazy Re.CsAny);
          Re.Alt newline (Re.Alt (Re.lit "RESPONSE:") Re.Eol)].

(** What one turn of the loop leaves in its field, [old] being what was
    there: the trimmed value of group 1 when it is accepted. *)
Definition field_of (text : string) (pattern : Re.regex) (old : pyval) : pyval :=
  match Re.search pattern text parse_flags with
  | Some m =>
      let value := strip (Re.group m 1) in
      if accepted value then PStr value else old
  | None => old
  end.

(** The dictionary [classify_message] returns on success. *)
Definition success_result (parsed : dict) (raw : pyval) : pyval :=
  PDict [("success", PBool true); ("error", PNone);
         ("data", PDict parsed); ("raw_response", raw)].

Definition empty_input_result : pyval :=
  PDict [("success", PBool false);
         ("error", PStr "Please enter a message to classify");
         ("data", PDict [])].

Definition no_response_result : pyval :=
  PDict [("success", PBool false);
         ("error", PStr "No response from Ollama API");
         ("data", PDict [])].

(** The request [call_ollama_api] sends for [prompt]. *)
Definition chat_request (self : ATCMessageProcessor) (prompt : string) : request :=
  Request (ollama_url self) (payload_of self prompt)
          [("Content-Type", "application/json")] 30.

(** The well-formed reply of the round-trip property. *)
Definition emergency_reply : string :=
  "SENDER: PILOT" ++ nl ++ "TYPE: EMERGENCY" ++ nl ++ "AIRCRAFT: N123AB" ++ nl
  ++ "DETAILS: engine fire" ++ nl
  ++ "RESPONSE: Declare emergency, cleared direct, N123AB".

(** *** Sample worlds and replies *)

(** A network on which every request fails with a transport error. *)
Definition refusing_world : world :=
  World (fun _ _ => raise (Exn true false "Connection refused")) [].

(** A server that answers every request with status 500. *)
Definition failing_world : world :=
  World (fun _ _ =>
           ret (Response 500 "Internal Server Error"
                         (raise (Exn false true "Expecting value"))))
        [].

(** A server that answers 200 with [content] as the content of the message. *)
Definition replying_world (content : pyval) : world :=
  World (fun _ _ =>
           ret (Response 200 ""
                  (ret (PDict [("model", PStr "gemma3:4b");
                               ("message", PDict [("role", PStr "assistant");
                                                  ("content", content)]);
                               ("done", PBool true)]))))
        [].

(** A reply whose details run over two lines before the [RESPONSE:] tag. *)
Definition two_line_details : string :=
  "DETAILS: engine fire" ++ nl ++ "smoke in cabin" ++ nl ++ "RESPONSE: roger".




(** *** [validate_connection] *)

(** The body of the [try] of [validate_connection] once the request has been
    answered. *)
Definition on_test_response (response : response) : raising pyval :=
  if Z.eqb (status_code response) 200 then
    result <- json response ;;
    py_keys result ;;;
    ret (PDict [("success", PBool true); ("message", PStr "Connection successful")])
  else
    let error_msg :=
      "HTTP " ++ str_of_int (status_code response) ++ ": " ++ text response in
    ret (PDict [("success", PBool false); ("message", PStr error_msg)]).

(** Its single [except Exception]. *)
Definition handle_test (body : raising pyval) : pyval :=
  match body with
  | inr v => v
  | inl e =>
      PDict [("success", PBool false);
             ("message", PStr ("Connection failed: " ++ str_e e))]
  end.

Definition validate_connection (self : ATCMessageProcessor) : Net pyval :=
  fun w =>
    let test_payload :=
      PDict [("model", PStr (model self));
             ("messages", PList [PDict [("role", PStr "user"); ("content", PStr "Hello")]]);
             ("stream", PBool false)] in
    let (posted, w') :=
      post (Request (ollama_url self) test_payload
                    [("Content-Type", "application/json")] 10) w in
    (handle_test (response <- posted ;; on_test_response response), w').

(** *** A scanner to compare the patterns with *)

(** Where the value of the four one-line tags can end: at the end of the
    text or before a line break. *)
Definition line_stop (rest : string) : bool :=
  String.eqb rest "" || startswith nl rest.

(** The first position at which [tag] stands in [s], letter case ignored:
    on the text of this model (code points below U+0100) that is the test
    [re.IGNORECASE] makes for the characters of a tag. *)
Fixpoint find_tag (tag s : string) : option nat :=
  if istartswith tag s then Some 0
  else match s with
       | String _ s' => option_map S (find_tag tag s')
       | EmptyString => None
       end.

(** How many characters of [r] come before the first stop. *)
Fixpoint value_len (stop : string -> bool) (r : string) : nat :=
  if stop r then 0
  else match r with
       | String _ r' => S (value_len stop r')
       | EmptyString => 0
       end.

(** The last character of [s], as a text. *)
Definition last_char (s : string) : string := drop (String.length s - 1) s.

(** Reading a value without patterns: go to the first [tag], skip the white
    space after it, and take the next character and all that follows up to
    the first stop.  When only white space follows the tag, the value is
    the last of it; when nothing follows, there is none. *)
Definition scan_group (tag : string) (stop : string -> bool) (text : string)
  : option string :=
  match find_tag tag text with
  | None => None
  | Some p =>
      let rest := drop (p + String.length tag) text in
      match lstrip rest with
      | String c r => Some (String c (take (value_len stop r) r))
      | EmptyString =>
          match rest with
          | EmptyString => None
          | String _ _ => Some (last_char rest)
          end
      end
  end.

(** The tag and the stop of every key. *)
Definition scanners : list (string * (string * (string -> bool))) :=
  [("sender", ("SENDER:", line_stop));
   ("type", ("TYPE:", line_stop));
   ("aircraft", ("AIRCRAFT:", line_stop));
   ("details", ("DETAILS:", details_stop));
   ("response", ("RESPONSE:", line_stop))].

(** The field a scanned value gives, [old] being the default. *)
Definition scanned_field (tag : string) (stop : string -> bool) (text : string)
           (old : pyval) : pyval :=
  match scan_group tag stop text with
  | Some g => if accepted (strip g) then PStr (strip g) else old
  | None => old
  end.

(** The prompt up to the opening quote of the message, and what follows
    the sender type, read off the prompt of an empty message. *)
Definition prompt_before_message : string :=
  take 119 (generate_classification_prompt "" "").

Definition prompt_after_sender (sender_type : string) : string :=
  if String.eqb sender_type "AUTO" then
    drop (134 + 4) (generate_classification_prompt "" "AUTO")
  else if String.eqb sender_type "PILOT" then
    drop (134 + 5) (generate_classification_prompt "" "PILOT")
  else
    drop 134 (generate_classification_prompt "" "").

(** The request [validate_connection] sends. *)
Definition probe_request (self : ATCMessageProcessor) : request :=
  Request (ollama_url self) (payload_of self "Hello")
          [("Content-Type", "application/json")] 10.

(** What [call_ollama_api] makes of a raised exception. *)
Definition error_text (e : exn) : string :=
  if is_RequestException e then "Connection Error: " ++ str_e e
  else if is_JSONDecodeError e then "JSON Error: " ++ str_e e
  else "Unexpected Error: " ++ str_e e.

(** The fields of a reply that was not searched: the defaults, with the
    reply itself as details. *)
Definition unparsed (raw : string) : dict :=
  [("sender", PStr "Unknown");
   ("type", PStr "Unknown");
   ("aircraft", PStr "Not specified");
   ("details", PStr raw);
   ("response", PStr "No response generated")].

(* ================================================================== *)
(** * Properties *)

(** ** Text *)

Lemma startswith_app (p s : string) : startswith p (p ++ s) = true.
Proof.
  induction p as [|c p IH]; simpl; [reflexivity|].
  now rewrite Ascii.eqb_refl, IH.
Qed.

Lemma startswith_split (p s : string) :
  startswith p s = true -> exists suf, s = p ++ suf.
Proof.
  revert s. induction p as [|c p IH]; intros s H.
  - exists s. reflexivity.
  - destruct s as [|d s]; simpl in H; [discriminate|].
    apply andb_true_iff in H as [Hc Hp].
    apply Ascii.eqb_eq in Hc. subst d.
    destruct (IH _ Hp) as [suf ->]. exists suf. reflexivity.
Qed.

Lemma startswith_contains (needle hay : string) :
  startswith needle hay = true -> str_contains needle hay = true.
Proof. intros H. destruct hay; simpl; now rewrite H. Qed.

Lemma str_contains_occurs (needle raw : string) :
  str_contains needle raw = true <-> occurs_in needle raw.
Proof.
  split.
  - induction raw as [|c raw IH]; simpl; intros H.
    + rewrite orb_false_r in H. destruct (startswith_split _ _ H) as [suf E].
      exists "", suf. exact E.
    + apply orb_true_iff in H as [H|H].
      * destruct (startswith_split _ _ H) as [suf E]. exists "", suf. exact E.
      * destruct (IH H) as (pre & suf & ->). exists (String c pre), suf. reflexivity.
  - intros (pre & suf & ->). induction pre as [|c pre IH].
    + exact (startswith_contains _ _ (startswith_app needle suf)).
    + simpl. simpl in IH. rewrite IH. apply orb_true_r.
Qed.

Lemma lstrip_blank (s : string) : blank s -> lstrip s = "".
Proof.
  induction s as [|c s IH]; intros H; simpl; [reflexivity|].
  rewrite (H 0 c eq_refl). apply IH. intros i d Hd. exact (H (S i) d Hd).
Qed.

Lemma strip_blank (s : string) : blank s -> strip s = "".
Proof. intros H. unfold strip. now rewrite lstrip_blank. Qed.

Lemma rstrip_nonspace_head (c : ascii) (s : string) :
  isspace c = false -> rstrip (String c s) <> "".
Proof. intros H. simpl. rewrite H. simpl. discriminate. Qed.

Lemma lstrip_head (s : string) :
  lstrip s = "" \/ exists c r, lstrip s = String c r /\ isspace c = false.
Proof.
  induction s as [|c s IH]; simpl; [now left|].
  destruct (isspace c) eqn:E; [exact IH|].
  right. exists c, s. split; [reflexivity | exact E].
Qed.

Lemma lstrip_empty_blank (s : string) : lstrip s = "" -> blank s.
Proof.
  induction s as [|c s IH]; simpl; intros H i d Hd.
  - destruct i; discriminate.
  - destruct (isspace c) eqn:E; [|discriminate].
    destruct i as [|i]; simpl in Hd.
    + injection Hd as <-. exact E.
    + exact (IH H i d Hd).
Qed.

(** [s.strip()] is empty exactly when [s] is blank. *)
Lemma strip_empty_iff (s : string) : strip s = "" <-> blank s.
Proof.
  split; [|apply strip_blank].
  unfold strip. intros H.
  destruct (lstrip_head s) as [E | (c & r & E & Hc)].
  - now apply lstrip_empty_blank.
  - rewrite E in H. now apply rstrip_nonspace_head with (s := r) in Hc.
Qed.

(** ** Dictionaries *)

Lemma keys_dict_set (d : dict) (k : string) (v : pyval) :
  In k (keys d) -> keys (dict_set d k v) = keys d.
Proof.
  induction d as [|[k' v'] d IH]; simpl; intros H; [contradiction|].
  destruct (String.eqb k' k) eqn:E; simpl; [reflexivity|].
  f_equal. apply IH. destruct H as [H|H]; [|exact H].
  apply String.eqb_neq in E. contradiction.
Qed.

Lemma dict_get_set_same (d : dict) (k : string) (v : pyval) :
  dict_get (dict_set d k v) k = Some v.
Proof.
  induction d as [|[k' v'] d IH]; simpl.
  - now rewrite String.eqb_refl.
  - destruct (String.eqb k' k) eqn:E; simpl; rewrite E; [reflexivity | exact IH].
Qed.

Lemma dict_get_set_other (d : dict) (k k' : string) (v : pyval) :
  k <> k' -> dict_get (dict_set d k v) k' = dict_get d k'.
Proof.
  intros Hne. induction d as [|[k0 v0] d IH]; simpl.
  - apply String.eqb_neq in Hne. now rewrite Hne.
  - destruct (String.eqb k0 k) eqn:E; simpl.
    + apply String.eqb_eq in E. subst k0.
      apply String.eqb_neq in Hne. now rewrite Hne.
    + now rewrite IH.
Qed.

(** ** [parse_response] on text *)

Lemma parse_response_short (text : string) :
  text = "" \/ str_contains "Error:" text = true ->
  parse_response (PStr text)
  = ret (dict_set defaults "details"
           (PStr (if String.eqb text "" then "No response received" else text))).
Proof.
  intros H. unfold parse_response, py_or. simpl.
  destruct (String.eqb text "") eqn:E; simpl; [reflexivity|].
  destruct H as [->|H]; [discriminate|].
  rewrite H. reflexivity.
Qed.

Lemma parse_response_long (text : string) :
  text <> "" -> str_contains "Error:" text = false ->
  parse_response (PStr text) = for_each (PStr text) patterns defaults.
Proof.
  intros Hne H. unfold parse_response. simpl.
  apply String.eqb_neq in Hne. rewrite Hne. simpl. rewrite H. reflexivity.
Qed.

Lemma extract_text (text : string) (d : dict) (key : string) (pattern : Re.regex) :
  exists d',
    extract (PStr text) d (key, pattern) = inr d'
    /\ (In key (keys d) -> keys d' = keys d)
    /\ (forall old, dict_get d key = Some old ->
                    dict_get d' key = Some (field_of text pattern old))
    /\ (forall k, k <> key -> dict_get d' k = dict_get d k).
Proof.
  unfold extract, field_of. simpl.
  destruct (Re.search pattern text parse_flags) as [m|]; simpl.
  - destruct (accepted (strip (Re.group m 1))); simpl.
    + eexists. split; [reflexivity|]. split; [|split].
      * apply keys_dict_set.
      * intros old _. apply dict_get_set_same.
      * intros k Hk. apply dict_get_set_other. congruence.
    + exists d. repeat split; auto.
  - exists d. repeat split; auto.
Qed.

Lemma for_each_text (text : string) (items : list (string * Re.regex)) :
  NoDup (map fst items) ->
  forall d, (forall k, In k (map fst items) -> In k (keys d)) ->
  exists d',
    for_each (PStr text) items d = inr d'
    /\ keys d' = keys d
    /\ (forall key pattern old,
          In (key, pattern) items -> dict_get d key = Some old ->
          dict_get d' key = Some (field_of text pattern old))
    /\ (forall k, ~ In k (map fst items) -> dict_get d' k = dict_get d k).
Proof.
  induction items as [|[k0 p0] items IH]; intros Hnd d Hin.
  - exists d. simpl. repeat split; auto. intros ? ? ? [].
  - inversion Hnd as [|? ? Hnot Hnd']; subst.
    destruct (extract_text text d k0 p0) as (d1 & E1 & K1 & S1 & O1).
    assert (Hk0 : In k0 (keys d)) by (apply Hin; now left).
    specialize (K1 Hk0).
    destruct (IH Hnd' d1) as (d' & E' & K' & S' & O').
    { intros k Hk. rewrite K1. apply Hin. now right. }
    exists d'. split; [|split; [|split]].
    + cbn [for_each]. rewrite E1. exact E'.
    + congruence.
    + intros key pattern old [Heq|Hrest] Hold.
      * injection Heq as <- <-. rewrite (O' k0 Hnot). now apply S1.
      * assert (key <> k0).
        { intros ->. apply Hnot. change k0 with (fst (k0, pattern)). now apply in_map. }
        apply (S' key pattern old Hrest). now rewrite O1.
    + intros k Hk. simpl in Hk.
      rewrite O'; [|tauto]. apply O1. intros ->. tauto.
Qed.

Lemma patterns_nodup : NoDup (map fst patterns).
Proof.
  simpl. repeat constructor; simpl; intuition discriminate.
Qed.

Lemma patterns_keys (k : string) : In k (map fst patterns) -> In k (keys defaults).
Proof. simpl. tauto. Qed.

(** On a text that is not short-circuited every field is decided by its own
    pattern alone. *)
Lemma parse_fields (text : string) :
  text <> "" -> str_contains "Error:" text = false ->
  exists parsed,
    parse_response (PStr text) = inr parsed
    /\ keys parsed = keys defaults
    /\ (forall key pattern old,
          In (key, pattern) patterns -> dict_get defaults key = Some old ->
          dict_get parsed key = Some (field_of text pattern old)).
Proof.
  intros Hne H. rewrite (parse_response_long Hne H).
  destruct (@for_each_text text patterns patterns_nodup defaults patterns_keys)
    as (d' & E & K & F & _).
  exists d'. auto.
Qed.

(** ** Positions in a text *)

Lemma drop_empty (n : nat) : drop n "" = "".
Proof. destruct n; reflexivity. Qed.

Lemma drop_drop (a b : nat) (s : string) : drop a (drop b s) = drop (b + a) s.
Proof.
  revert s. induction b as [|b IH]; intros s; [reflexivity|].
  destruct s as [|c s]; simpl; [apply drop_empty | apply IH].
Qed.

Lemma length_drop (n : nat) (s : string) :
  String.length (drop n s) = String.length s - n.
Proof.
  revert s. induction n as [|n IH]; intros s; simpl; [lia|].
  destruct s as [|c s]; simpl; [reflexivity | apply IH].
Qed.


Lemma istartswith_length (p s : string) :
  istartswith p s = true -> String.length p <= String.length s.
Proof.
  revert s. induction p as [|a p IH]; intros s H; simpl; [lia|].
  destruct s as [|b s]; simpl in *; [discriminate|].
  apply andb_true_iff in H as [_ H]. apply IH in H. lia.
Qed.

Lemma tolower_newline (c : ascii) :
  Ascii.eqb (tolower c) "010" = Ascii.eqb c "010".
Proof. destruct c as [[] [] [] [] [] [] [] []]; reflexivity. Qed.

(** ** The matcher *)


(** A literal run under [IGNORECASE] is a case-blind prefix test. *)
Lemma lit_match (fl : Re.flags) (p : string) (k : Re.cont) (s : string) (i : nat)
      (g : list Re.span) :
  Re.IGNORECASE fl = true ->
  Re.sre_match fl (Re.lit p) k s i g
  = if istartswith p s then k (drop (String.length p) s) (i + String.length p) g
    else None.
Proof.
  intros Hfl. revert s i. induction p as [|a p IH]; intros s i; simpl.
  - now rewrite Nat.add_0_r.
  - destruct s as [|b s]; [reflexivity|].
    unfold Re.in_charset. rewrite Hfl.
    destruct (Ascii.eqb (tolower b) (tolower a)); simpl; [|reflexivity].
    rewrite IH, Nat.add_succ_r. reflexivity.
Qed.

Section Quantifiers.
Variable A : Type.
Variable ok : ascii -> bool.
Variable k : string -> nat -> option A.



End Quantifiers.

(** The matcher on small texts: the tag in any letter case, white space
    that runs over a line break, a value cut at the stop, and a tag with
    nothing after it. *)
Example search_lower_case_tag :
  option_map (fun m => Re.group m 1)
             (Re.search details_pattern "details:   low fuel" parse_flags)
  = Some "low fuel".
Proof. reflexivity. Qed.

Example search_value_on_next_line :
  option_map (fun m => Re.group m 1)
             (Re.search details_pattern ("DETAILS:" ++ nl ++ "  low fuel" ++ nl) parse_flags)
  = Some "low fuel".
Proof. reflexivity. Qed.

Example search_stops_at_response_tag :
  option_map (fun m => Re.group m 1)
             (Re.search details_pattern "DETAILS: low fuel RESPONSE: roger" parse_flags)
  = Some "low fuel ".
Proof. reflexivity. Qed.

Example search_bare_tag :
  Re.search details_pattern "DETAILS:" parse_flags = None.
Proof. reflexivity. Qed.

(** ** A tag, white space, a reluctant value, a stop *)

Section Tagged.
Variable tag : string.
Variable stops : Re.regex.
Variable stop : string -> bool.

(** What the last item of the pattern does is decided by [stop] alone. *)
Hypothesis stops_spec : forall (t : string) (st : nat) (s : string) (i : nat) g,
  if stop s
  then exists e,
      Re.sre_match parse_flags stops (Re.accept t st) s i g = Some (Re.Match t (st, e) g)
  else Re.sre_match parse_flags stops (Re.accept t st) s i g = None.

End Tagged.

(** The last item of the [DETAILS:] pattern is decided by [details_stop]. *)
Lemma details_stops_spec (t : string) (st : nat) (s : string) (i : nat)
      (g : list Re.span) :
  if details_stop s
  then exists e,
      Re.sre_match parse_flags
        (Re.Alt newline (Re.Alt (Re.lit "RESPONSE:") Re.Eol))
        (Re.accept t st) s i g = Some (Re.Match t (st, e) g)
  else Re.sre_match parse_flags
         (Re.Alt newline (Re.Alt (Re.lit "RESPONSE:") Re.Eol))
         (Re.accept t st) s i g = None.
Proof.
  unfold details_stop, newline.
  cbn [Re.sre_match].
  rewrite lit_match by reflexivity.
  destruct s as [|c s].
  - simpl. eexists. reflexivity.
  - cbn [Re.in_charset Re.IGNORECASE parse_flags].
    change (tolower "010") with "010"%char. rewrite tolower_newline.
    change (startswith nl (String c s)) with (Ascii.eqb "010" c && true).
    rewrite andb_true_r, (Ascii.eqb_sym "010" c).
    destruct (Ascii.eqb c "010") eqn:Hc.
    + simpl. eexists. reflexivity.
    + change (String.eqb (String c s) "") with false. cbn [orb].
      destruct (istartswith "RESPONSE:" (String c s)).
      * eexists. reflexivity.
      * unfold Re.at_end. change (String.eqb (String c s) "") with false.
        cbn [orb]. unfold nl. cbn [String.eqb]. rewrite Hc. reflexivity.
Qed.

(** ** [parse_response] never fails on text *)

Lemma parse_response_total (text : string) :
  exists parsed,
    parse_response (PStr text) = inr parsed /\ keys parsed = keys defaults.
Proof.
  destruct (String.eqb text "") eqn:E.
  - apply String.eqb_eq in E. rewrite parse_response_short by now left.
    eexists. split; [reflexivity|]. apply keys_dict_set. simpl. tauto.
  - apply String.eqb_neq in E.
    destruct (str_contains "Error:" text) eqn:C.
    + rewrite parse_response_short by now right.
      eexists. split; [reflexivity|]. apply keys_dict_set. simpl. tauto.
    + destruct (parse_fields E C) as (parsed & P & K & _). eauto.
Qed.


(** Every key of the result has a pattern and a text default. *)
Lemma patterns_cover (key : string) :
  In key (keys defaults) ->
  exists pattern d,
    In (key, pattern) patterns /\ dict_get defaults key = Some (PStr d).
Proof.
  simpl. intros [<-|[<-|[<-|[<-|[<-|[]]]]]];
    do 2 eexists; (split; [|reflexivity]); simpl; eauto 10.
Qed.


(** ** What [call_ollama_api] can return *)

Lemma handle_raised_text (e : exn) : exists s, handle (inl e) = PStr s.
Proof.
  unfold handle. destruct (is_RequestException e); [eauto|].
  destruct (is_JSONDecodeError e); eauto.
Qed.

(** The reply is text, or the list found as the content of the message. *)
Lemma on_response_cases (r : response) :
  (exists s, handle (on_response r) = PStr s)
  \/ (exists l result message,
         status_code r = 200%Z /\ json r = inr result
         /\ py_get result "message" (PDict []) = inr message
         /\ py_get message "content" (PStr "") = inr (PList l)
         /\ handle (on_response r) = PList l).
Proof.
  unfold on_response.
  destruct (Z.eqb (status_code r) 200) eqn:St; [|left; simpl; eauto].
  apply Z.eqb_eq in St.
  destruct (json r) as [e|result] eqn:J; [left; apply handle_raised_text|].
  cbn [bind].
  destruct result as [| | | | |?|d]; try (left; apply handle_raised_text).
  cbn [py_keys bind ret].
  destruct (py_get (PDict d) "message" (PDict [])) as [e|message] eqn:M;
    [left; apply handle_raised_text|].
  cbn [bind].
  destruct (py_get message "content" (PStr "")) as [e|content] eqn:Cn;
    [left; apply handle_raised_text|].
  cbn [bind].
  destruct content as [| | | |s|l|d']; try (left; apply handle_raised_text).
  - left. simpl. eauto.
  - right. exists l, (PDict d), message. simpl. auto.
Qed.

(* ================================================================== *)
(** * The claims *)

(** C1, as the code has it: when the request raises a transport failure (a
    [RequestException]: name resolution, refused connection, timeout),
    [call_ollama_api] returns the text [Connection Error: <detail>].  The
    text holds [Error:] but does not begin with [Error: Connection Error:]. *)
Theorem C1_connection_error_text (self : ATCMessageProcessor) (prompt : string)
        (w : world) (e : exn) :
  wire w (sent w) (chat_request self prompt) = inl e ->
  is_RequestException e = true ->
  fst (call_ollama_api self prompt w) = PStr ("Connection Error: " ++ str_e e)
  /\ str_contains "Error:" ("Connection Error: " ++ str_e e) = true
  /\ startswith "Error: Connection Error:" ("Connection Error: " ++ str_e e) = false.
Proof.
  intros Hw He. unfold call_ollama_api, post. cbn [fst].
  fold (chat_request self prompt). rewrite Hw. cbn [bind handle].
  rewrite He. repeat split.
Qed.

Lemma C1_connection_error_text_witness :
  wire refusing_world (sent refusing_world) (chat_request default_processor "Hello")
  = inl (Exn true false "Connection refused")
  /\ is_RequestException (Exn true false "Connection refused") = true
  /\ fst (call_ollama_api default_processor "Hello" refusing_world)
     = PStr "Connection Error: Connection refused".
Proof.
  split; [reflexivity|]. split; [reflexivity|].
  exact (proj1 (@C1_connection_error_text default_processor "Hello" refusing_world
                  (Exn true false "Connection refused") eq_refl eq_refl)).
Defined.

(** C1 as stated fails: on a refused connection the returned text is
    [Connection Error: Connection refused], which does not begin with
    [Error: Connection Error:]. *)
Lemma C1_counterexample :
  is_RequestException (Exn true false "Connection refused") = true
  /\ wire refusing_world (sent refusing_world) (chat_request default_processor "Hello")
     = inl (Exn true false "Connection refused")
  /\ fst (call_ollama_api default_processor "Hello" refusing_world)
     = PStr "Connection Error: Connection refused"
  /\ startswith "Error: Connection Error:" "Connection Error: Connection refused" = false.
Proof. repeat split. Qed.




(** C3: for a message that is not blank, whenever [call_ollama_api] returns
    a text (a text that reports a transport or API error included),
    [classify_message] returns success true, error [None], data the parsed
    fields and the raw reply. *)
Theorem C3_success_on_any_text (self : ATCMessageProcessor)
        (message sender_type : string) (w : world) (raw : string) :
  ~ blank message ->
  fst (call_ollama_api self (generate_classification_prompt message sender_type) w)
  = PStr raw ->
  exists parsed,
    parse_response (PStr raw) = inr parsed
    /\ classify_message self message sender_type w
       = (inr (success_result parsed (PStr raw)),
          snd (call_ollama_api self
                 (generate_classification_prompt message sender_type) w)).
Proof.
  intros Hnb Hraw.
  destruct (parse_response_total raw) as (parsed & P & _).
  exists parsed. split; [exact P|].
  unfold classify_message.
  assert (Hs : strip message <> "") by (now rewrite strip_empty_iff).
  apply String.eqb_neq in Hs. cbn [truthy]. rewrite Hs. cbn [negb].
  destruct (call_ollama_api self
              (generate_classification_prompt message sender_type) w)
    as [raw_response w'].
  cbn [fst snd] in *. subst raw_response. rewrite P. reflexivity.
Qed.

Lemma C3_success_on_any_text_witness :
  ~ blank "Mayday"
  /\ fst (call_ollama_api default_processor
            (generate_classification_prompt "Mayday" "PILOT") refusing_world)
     = PStr "Connection Error: Connection refused"
  /\ exists parsed,
      parse_response (PStr "Connection Error: Connection refused") = inr parsed
      /\ classify_message default_processor "Mayday" "PILOT" refusing_world
         = (inr (success_result parsed (PStr "Connection Error: Connection refused")),
            snd (call_ollama_api default_processor
                   (generate_classification_prompt "Mayday" "PILOT") refusing_world)).
Proof.
  assert (Hnb : ~ blank "Mayday").
  { intros H. specialize (H 0 "M"%char eq_refl). discriminate. }
  split; [exact Hnb|]. split; [reflexivity|].
  exact (@C3_success_on_any_text default_processor "Mayday" "PILOT" refusing_world
           "Connection Error: Connection refused" Hnb eq_refl).
Defined.

(** C4: for a raw reply that holds [Error:] anywhere, and for the empty
    reply, [parse_response] returns every field at its default except
    details, which is the raw text, or [No response received] when the raw
    text is empty. *)
Theorem C4_error_reply_short_circuit (raw : string) :
  raw = "" \/ occurs_in "Error:" raw ->
  parse_response (PStr raw)
  = inr [("sender", PStr "Unknown");
         ("type", PStr "Unknown");
         ("aircraft", PStr "Not specified");
         ("details", PStr (if String.eqb raw "" then "No response received" else raw));
         ("response", PStr "No response generated")].
Proof.
  intros H. apply parse_response_short.
  destruct H as [H|H]; [now left | right; now apply str_contains_occurs].
Qed.

Lemma C4_error_reply_short_circuit_witness :
  ("JSON Error: Expecting value" = ""
   \/ occurs_in "Error:" "JSON Error: Expecting value")
  /\ parse_response (PStr "JSON Error: Expecting value")
     = inr [("sender", PStr "Unknown");
            ("type", PStr "Unknown");
            ("aircraft", PStr "Not specified");
            ("details", PStr "JSON Error: Expecting value");
            ("response", PStr "No response generated")].
Proof.
  assert (H : "JSON Error: Expecting value" = ""
              \/ occurs_in "Error:" "JSON Error: Expecting value").
  { right. exists "JSON ", " Expecting value". reflexivity. }
  split; [exact H|].
  exact (@C4_error_reply_short_circuit "JSON Error: Expecting value" H).
Defined.

(** C5: for a message that is empty or holds only white space,
    [classify_message] returns success false with the error
    [Please enter a message to classify] and empty data, and sends nothing:
    the world is left as it was. *)
Theorem C5_blank_message_no_call (self : ATCMessageProcessor)
        (message sender_type : string) (w : world) :
  blank message ->
  classify_message self message sender_type w = (inr empty_input_result, w)
  /\ sent (snd (classify_message self message sender_type w)) = sent w.
Proof.
  intros H. unfold classify_message.
  rewrite (strip_blank H). split; reflexivity.
Qed.

Lemma C5_blank_message_no_call_witness :
  blank "   "
  /\ classify_message default_processor "   " "AUTO" refusing_world
     = (inr empty_input_result, refusing_world).
Proof.
  assert (Hb : blank "   ").
  { intros i c H. destruct i as [|[|[|i]]]; simpl in H;
      try discriminate; injection H as <-; reflexivity. }
  split; [exact Hb|].
  exact (proj1 (@C5_blank_message_no_call default_processor "   " "AUTO"
                  refusing_world Hb)).
Defined.

(** C7: when the response has a status other than 200, [call_ollama_api]
    returns the text [Error: HTTP <status> - <body>], which begins with
    [Error: HTTP 500] when the status is 500, and [parse_response] of that
    text has details equal to that very text. *)
Theorem C7_http_error_text (self : ATCMessageProcessor) (prompt : string)
        (w : world) (r : response) :
  wire w (sent w) (chat_request self prompt) = inr r ->
  status_code r <> 200%Z ->
  let reply := "Error: HTTP " ++ str_of_int (status_code r) ++ " - " ++ text r in
  fst (call_ollama_api self prompt w) = PStr reply
  /\ (status_code r = 500%Z -> startswith "Error: HTTP 500" reply = true)
  /\ exists parsed,
      parse_response (PStr reply) = inr parsed
      /\ dict_get parsed "details" = Some (PStr reply).
Proof.
  intros Hw Hst reply. split; [|split].
  - unfold call_ollama_api, post. cbn [fst].
    fold (chat_request self prompt). rewrite Hw. cbn [bind].
    unfold on_response. apply Z.eqb_neq in Hst. rewrite Hst. reflexivity.
  - intros H500. unfold reply. rewrite H500. reflexivity.
  - rewrite parse_response_short by (right; reflexivity).
    eexists. split; [reflexivity|]. rewrite dict_get_set_same. reflexivity.
Qed.

Lemma C7_http_error_text_witness :
  wire failing_world (sent failing_world) (chat_request default_processor "Hello")
  = inr (Response 500 "Internal Server Error" (raise (Exn false true "Expecting value")))
  /\ 500%Z <> 200%Z
  /\ fst (call_ollama_api default_processor "Hello" failing_world)
     = PStr "Error: HTTP 500 - Internal Server Error"
  /\ (500%Z = 500%Z ->
      startswith "Error: HTTP 500" "Error: HTTP 500 - Internal Server Error" = true)
  /\ exists parsed,
      parse_response (PStr "Error: HTTP 500 - Internal Server Error") = inr parsed
      /\ dict_get parsed "details"
         = Some (PStr "Error: HTTP 500 - Internal Server Error").
Proof.
  assert (Hst : 500%Z <> 200%Z) by discriminate.
  split; [reflexivity|]. split; [exact Hst|].
  exact (@C7_http_error_text default_processor "Hello" failing_world
           (Response 500 "Internal Server Error" (raise (Exn false true "Expecting value")))
           eq_refl Hst).
Defined.

(** C8: the well-formed emergency reply is parsed into exactly sender
    [PILOT], type [EMERGENCY], aircraft [N123AB], details [engine fire] and
    response [Declare emergency, cleared direct, N123AB]. *)
Theorem C8_round_trip :
  parse_response (PStr emergency_reply)
  = inr [("sender", PStr "PILOT");
         ("type", PStr "EMERGENCY");
         ("aircraft", PStr "N123AB");
         ("details", PStr "engine fire");
         ("response", PStr "Declare emergency, cleared direct, N123AB")].
Proof. vm_compute. reflexivity. Qed.




(** X19: [call_ollama_api] never returns [None]: it returns text, or the
    list found as the content of the message of a 200 reply.  So, whatever
    the message and the network, [classify_message] never returns the
    [No response from Ollama API] result. *)
Theorem X19_never_none (self : ATCMessageProcessor) (prompt : string) (w : world) :
  fst (call_ollama_api self prompt w) <> PNone
  /\ ((exists s, fst (call_ollama_api self prompt w) = PStr s)
      \/ (exists l r result message,
             wire w (sent w) (chat_request self prompt) = inr r
             /\ status_code r = 200%Z /\ json r = inr result
             /\ py_get result "message" (PDict []) = inr message
             /\ py_get message "content" (PStr "") = inr (PList l)
             /\ fst (call_ollama_api self prompt w) = PList l))
  /\ (forall message sender_type,
         fst (classify_message self message sender_type w) <> inr no_response_result).
Proof.
  assert (Hcases : forall prompt',
             (exists s, fst (call_ollama_api self prompt' w) = PStr s)
             \/ (exists l r result message,
                    wire w (sent w) (chat_request self prompt') = inr r
                    /\ status_code r = 200%Z /\ json r = inr result
                    /\ py_get result "message" (PDict []) = inr message
                    /\ py_get message "content" (PStr "") = inr (PList l)
                    /\ fst (call_ollama_api self prompt' w) = PList l)).
  { intros prompt'. unfold call_ollama_api, post. cbn [fst].
    fold (chat_request self prompt').
    destruct (wire w (sent w) (chat_request self prompt')) as [e|r] eqn:Hw.
    - left. apply handle_raised_text.
    - cbn [bind]. destruct (on_response_cases r)
        as [Hs | (l & result & message & H1 & H2 & H3 & H4 & H5)]; [now left|].
      right. exists l, r, result, message. auto 10. }
  assert (Hnone : forall prompt', fst (call_ollama_api self prompt' w) <> PNone).
  { intros prompt' H.
    destruct (Hcases prompt') as [[s Hs] | (l & ? & ? & ? & _ & _ & _ & _ & _ & Hl)];
      congruence. }
  split; [apply Hnone|]. split; [apply Hcases|].
  intros message sender_type. unfold classify_message.
  destruct (negb (truthy (PStr (strip message)))); [discriminate|].
  specialize (Hnone (generate_classification_prompt message sender_type)).
  destruct (call_ollama_api self
              (generate_classification_prompt message sender_type) w)
    as [raw_response w'].
  cbn [fst] in *.
  destruct raw_response; try congruence;
    match goal with
    | |- context [parse_response ?v] => destruct (parse_response v); discriminate
    end.
Qed.

(** C10: the claim holds on every path but one, where the code goes wrong.
    When the server answers 200 with a list as the content of the message,
    [call_ollama_api] returns that list, which is not text, while every
    other content that is not text becomes an [Unexpected Error] text; and
    [classify_message] then raises, the [TypeError] of [re.search]. *)
Theorem C10_list_content_escapes :
  fst (call_ollama_api default_processor
         (generate_classification_prompt "Mayday" "PILOT")
         (replying_world (PList [PStr "x"])))
  = PList [PStr "x"]
  /\ (forall s, PList [PStr "x"] <> PStr s)
  /\ fst (call_ollama_api default_processor
            (generate_classification_prompt "Mayday" "PILOT")
            (replying_world PNone))
     = PStr "Unexpected Error: object of type 'NoneType' has no len()"
  /\ fst (classify_message default_processor "Mayday" "PILOT"
            (replying_world (PList [PStr "x"])))
     = inl (TypeError "expected string or bytes-like object, got 'list'").
Proof.
  split; [reflexivity|]. split; [discriminate|]. split; [reflexivity|].
  vm_compute. reflexivity.
Qed.

(* ================================================================== *)
(** * Further properties *)

(** ** The patterns and the scanner *)

Lemma find_tag_some (tag s : string) (p : nat) :
  find_tag tag s = Some p ->
  istartswith tag (drop p s) = true
  /\ (forall q, q < p -> istartswith tag (drop q s) = false)
  /\ p <= String.length s.
Proof.
  revert p. induction s as [|c s IH]; intros p H; simpl in H.
  - destruct (istartswith tag "") eqn:E; [|discriminate].
    injection H as <-. repeat split; [exact E | intros; lia | simpl; lia].
  - destruct (istartswith tag (String c s)) eqn:E.
    + injection H as <-. repeat split; [exact E | intros; lia | simpl; lia].
    + destruct (find_tag tag s) as [p'|] eqn:F; [|discriminate].
      injection H as <-. destruct (IH _ eq_refl) as (H1 & H2 & H3).
      repeat split; [exact H1 | | simpl; lia].
      intros q Hq. destruct q as [|q]; [exact E | apply H2; lia].
Qed.

Lemma find_tag_none (tag s : string) :
  find_tag tag s = None -> forall q, istartswith tag (drop q s) = false.
Proof.
  induction s as [|c s IH]; intros H q; simpl in H.
  - rewrite drop_empty. now destruct (istartswith tag "").
  - destruct (istartswith tag (String c s)) eqn:E; [discriminate|].
    destruct (find_tag tag s) eqn:F; [discriminate|].
    destruct q as [|q]; [exact E | exact (IH eq_refl q)].
Qed.

Lemma search_from_first (fl : Re.flags) (r : Re.regex) (t s : string) (i p : nat)
      (m : Re.match_obj) :
  p <= String.length s ->
  (forall q, q < p ->
             Re.sre_match fl r (Re.accept t (i + q)) (drop q s) (i + q) [] = None) ->
  Re.sre_match fl r (Re.accept t (i + p)) (drop p s) (i + p) [] = Some m ->
  Re.search_from fl r t s i = Some m.
Proof.
  revert s i. induction p as [|p IH]; intros s i Hp Hbefore Hat.
  - rewrite Nat.add_0_r in Hat. cbn [drop] in Hat.
    destruct s; simpl; now rewrite Hat.
  - destruct s as [|c s]; [simpl in Hp; lia|].
    pose proof (Hbefore 0 ltac:(lia)) as H0. rewrite Nat.add_0_r in H0.
    cbn [drop] in H0. cbn [Re.search_from]. rewrite H0.
    apply IH; [simpl in Hp; lia | |].
    + intros q Hq. specialize (Hbefore (S q) ltac:(lia)).
      rewrite Nat.add_succ_r in Hbefore. exact Hbefore.
    + rewrite Nat.add_succ_r in Hat. exact Hat.
Qed.

Lemma search_from_nowhere (fl : Re.flags) (r : Re.regex) (t s : string) (i : nat) :
  (forall q, q <= String.length s ->
             Re.sre_match fl r (Re.accept t (i + q)) (drop q s) (i + q) [] = None) ->
  Re.search_from fl r t s i = None.
Proof.
  revert i. induction s as [|c s IH]; intros i H.
  - specialize (H 0 ltac:(simpl; lia)). rewrite Nat.add_0_r in H. simpl in *.
    now rewrite H.
  - pose proof (H 0 ltac:(simpl; lia)) as H0. rewrite Nat.add_0_r in H0.
    cbn [drop] in H0. cbn [Re.search_from]. rewrite H0.
    apply IH. intros q Hq. specialize (H (S q) ltac:(simpl; lia)).
    rewrite Nat.add_succ_r in H. exact H.
Qed.

Lemma length_lstrip (s : string) : String.length (lstrip s) <= String.length s.
Proof.
  induction s as [|c s IH]; simpl; [lia|]. destruct (isspace c); simpl; lia.
Qed.

(** [lstrip] drops a prefix. *)
Lemma drop_lstrip (s : string) :
  drop (String.length s - String.length (lstrip s)) s = lstrip s.
Proof.
  induction s as [|c s IH]; [reflexivity|]. simpl lstrip.
  destruct (isspace c).
  - pose proof (length_lstrip s).
    replace (String.length (String c s) - String.length (lstrip s))
      with (S (String.length s - String.length (lstrip s)))
      by (change (String.length (String c s)) with (S (String.length s)); lia).
    exact IH.
  - now rewrite Nat.sub_diag.
Qed.

Lemma last_char_single (s : string) :
  s <> "" -> exists c, last_char s = String c "".
Proof.
  unfold last_char. induction s as [|c s IH]; intros H; [congruence|].
  destruct s as [|d s]; [exists c; reflexivity|].
  destruct IH as [x Hx]; [discriminate|]. exists x.
  simpl in *. rewrite Nat.sub_0_r in *. exact Hx.
Qed.

Section Greedy.
Variable A : Type.
Variable k : string -> nat -> option A.

(** The greedy star takes all the white space when what follows matches
    after it. *)
Lemma star_greedy_full (s : string) (i : nat) (m : A) :
  k (lstrip s) (i + (String.length s - String.length (lstrip s))) = Some m ->
  Re.star_greedy isspace k s i = Some m.
Proof.
  revert i. induction s as [|c s IH]; intros i H.
  - simpl in *. now rewrite Nat.add_0_r in H.
  - simpl lstrip in H. cbn [Re.star_greedy]. destruct (isspace c).
    + pose proof (length_lstrip s).
      rewrite (IH (S i)); [reflexivity|].
      replace (S i + (String.length s - String.length (lstrip s)))
        with (i + (String.length (String c s) - String.length (lstrip s)))
        by (change (String.length (String c s)) with (S (String.length s)); lia).
      exact H.
    + rewrite Nat.sub_diag, Nat.add_0_r in H. exact H.
Qed.

(** When only white space is left and nothing matches after it, the star
    gives the last of it back. *)
Lemma star_greedy_back_one (s : string) (i : nat) (m : A) :
  lstrip s = "" -> s <> "" ->
  k "" (i + String.length s) = None ->
  k (last_char s) (i + (String.length s - 1)) = Some m ->
  Re.star_greedy isspace k s i = Some m.
Proof.
  revert i. induction s as [|c s IH]; intros i Hl Hne Hend Hlast; [congruence|].
  simpl in Hl. cbn [Re.star_greedy].
  destruct (isspace c); [|discriminate].
  destruct s as [|d s].
  - cbn [Re.star_greedy]. simpl in Hend. rewrite Nat.add_1_r in Hend.
    rewrite Hend. simpl in Hlast. rewrite Nat.add_0_r in Hlast. exact Hlast.
  - rewrite (IH (S i)); [reflexivity | exact Hl | discriminate | |].
    + simpl in *. rewrite Nat.add_succ_r in Hend. exact Hend.
    + unfold last_char in *. simpl in *. rewrite Nat.sub_0_r in *.
      rewrite Nat.add_succ_r in Hlast. exact Hlast.
Qed.
End Greedy.

Section Scanner.
Variable tag : string.
Variable stops : Re.regex.
Variable stop : string -> bool.

Hypothesis stops_spec : forall (t : string) (st : nat) (s : string) (i : nat) g,
  if stop s
  then exists e,
      Re.sre_match parse_flags stops (Re.accept t st) s i g = Some (Re.Match t (st, e) g)
  else Re.sre_match parse_flags stops (Re.accept t st) s i g = None.

Hypothesis stop_empty : stop "" = true.

(** The reluctant value runs up to the first stop. *)
Lemma star_lazy_to_stop (t : string) (st a : nat) (r : string) (i : nat) :
  exists e,
    Re.star_lazy (fun _ => true)
      (fun s2 i2 => Re.sre_match parse_flags stops (Re.accept t st) s2 i2 [(a, i2)])
      r i
    = Some (Re.Match t (st, e) [(a, i + value_len stop r)]).
Proof.
  revert i. induction r as [|c r IH]; intros i.
  - pose proof (stops_spec t st "" i [(a, i)]) as H. rewrite stop_empty in H.
    destruct H as [e He]. exists e. simpl. rewrite He, stop_empty, Nat.add_0_r.
    reflexivity.
  - pose proof (stops_spec t st (String c r) i [(a, i)]) as H.
    cbn [Re.star_lazy value_len]. destruct (stop (String c r)).
    + destruct H as [e He]. exists e. rewrite He, Nat.add_0_r. reflexivity.
    + rewrite H. destruct (IH (S i)) as [e He]. exists e.
      rewrite He, Nat.add_succ_r. reflexivity.
Qed.

(** What the pattern does at one position. *)
Lemma tagged_at (text : string) (q : nat) :
  Re.sre_match parse_flags
    (Re.seq [Re.lit tag; Re.Star Re.CsSpace; Re.Group (Re.PlusLazy Re.CsAny); stops])
    (Re.accept text q) (drop q text) q []
  = if istartswith tag (drop q text)
    then Re.star_greedy isspace
           (fun s' i' =>
              Re.plus_lazy (fun _ => true)
                (fun s2 i2 =>
                   Re.sre_match parse_flags stops (Re.accept text q) s2 i2 [(i', i2)])
                s' i')
           (drop (q + String.length tag) text) (q + String.length tag)
    else None.
Proof.
  cbn [Re.seq].
  change (Re.sre_match parse_flags (Re.lit tag)
            (Re.sre_match parse_flags
               (Re.Cat (Re.Star Re.CsSpace)
                  (Re.Cat (Re.Group (Re.PlusLazy Re.CsAny)) (Re.Cat stops Re.Eps)))
               (Re.accept text q)) (drop q text) q []
          = if istartswith tag (drop q text)
            then Re.star_greedy isspace
                   (fun s' i' =>
                      Re.plus_lazy (fun _ => true)
                        (fun s2 i2 =>
                           Re.sre_match parse_flags stops (Re.accept text q) s2 i2
                                        [(i', i2)])
                        s' i')
                   (drop (q + String.length tag) text) (q + String.length tag)
            else None).
  rewrite lit_match by reflexivity.
  destruct (istartswith tag (drop q text)); [|reflexivity].
  rewrite drop_drop. reflexivity.
Qed.

(** Group 1 of the first match of [tag\s*(.+?)stops] is what the scanner
    reads. *)
Lemma tagged_search_scan (text : string) :
  option_map (fun m => Re.group m 1)
    (Re.search
       (Re.seq [Re.lit tag; Re.Star Re.CsSpace; Re.Group (Re.PlusLazy Re.CsAny); stops])
       text parse_flags)
  = scan_group tag stop text.
Proof.
  unfold Re.search, scan_group.
  destruct (find_tag tag text) as [p|] eqn:F.
  - destruct (find_tag_some _ _ F) as (Hp & Hbefore & Hlen).
    assert (Hskip : forall q, q < p ->
      Re.sre_match parse_flags
        (Re.seq [Re.lit tag; Re.Star Re.CsSpace; Re.Group (Re.PlusLazy Re.CsAny); stops])
        (Re.accept text (0 + q)) (drop q text) (0 + q) [] = None).
    { intros q Hq. cbn [Nat.add]. rewrite tagged_at, (Hbefore q Hq). reflexivity. }
    set (i1 := p + String.length tag).
    set (rest := drop i1 text).
    cbv zeta.
    destruct (lstrip rest) as [|c r] eqn:L.
    + destruct rest as [|c0 rest0] eqn:R.
      * (* nothing after the tag: no match here, and no room for one later *)
        rewrite search_from_nowhere; [reflexivity|].
        intros q Hq. cbn [Nat.add]. rewrite tagged_at.
        destruct (Nat.lt_trichotomy q p) as [Hlt|[->|Hgt]].
        -- now rewrite (Hbefore q Hlt).
        -- rewrite Hp. fold i1. fold rest. rewrite R. reflexivity.
        -- destruct (istartswith tag (drop q text)) eqn:E; [|reflexivity].
           apply istartswith_length in E. rewrite length_drop in E.
           assert (Hr : String.length rest = 0) by (now rewrite R).
           unfold rest in Hr. rewrite length_drop in Hr. unfold i1 in Hr. lia.
      * (* only white space after the tag: its last character is the value *)
        destruct (@last_char_single (String c0 rest0) ltac:(discriminate)) as [x Hx].
        destruct (star_lazy_to_stop text p (i1 + (String.length (String c0 rest0) - 1))
                    "" (S (i1 + (String.length (String c0 rest0) - 1)))) as [e He].
        rewrite (@search_from_first parse_flags _ text text 0 p
                   (Re.Match text (p, e)
                      [(i1 + (String.length (String c0 rest0) - 1),
                        S (i1 + (String.length (String c0 rest0) - 1)) + value_len stop "")])
                   Hlen Hskip).
        -- cbn [option_map]. unfold Re.group. cbn [Re.groups Re.m_string nth_error Nat.sub].
           simpl value_len. rewrite stop_empty, Nat.add_0_r.
           unfold slice.
           replace (S (i1 + (String.length (String c0 rest0) - 1))
                    - (i1 + (String.length (String c0 rest0) - 1))) with 1 by lia.
           rewrite <- drop_drop. fold rest. rewrite R.
           fold (last_char (String c0 rest0)). rewrite Hx. reflexivity.
        -- cbn [Nat.add]. rewrite tagged_at, Hp. fold i1. fold rest. rewrite R.
           apply star_greedy_back_one; [exact L | discriminate | reflexivity|].
           rewrite Hx. cbn [Re.plus_lazy]. exact He.
    + (* a value follows the white space *)
      pose proof (length_lstrip rest) as Hle.
      pose proof (drop_lstrip rest) as Hd. rewrite L in Hd, Hle.
      set (a := i1 + (String.length rest - String.length (String c r))) in *.
      destruct (star_lazy_to_stop text p a r (S a)) as [e He].
      rewrite (@search_from_first parse_flags _ text text 0 p
                 (Re.Match text (p, e) [(a, S a + value_len stop r)]) Hlen Hskip).
      * cbn [option_map]. unfold Re.group. cbn [Re.groups Re.m_string nth_error Nat.sub].
        unfold slice.
        replace (S a + value_len stop r - a) with (S (value_len stop r)) by lia.
        unfold a. rewrite <- drop_drop. fold rest. rewrite Hd. reflexivity.
      * cbn [Nat.add]. rewrite tagged_at, Hp. fold i1. fold rest.
        apply star_greedy_full. rewrite L. fold a. cbn [Re.plus_lazy]. exact He.
  - rewrite search_from_nowhere; [reflexivity|].
    intros q _. cbn [Nat.add]. rewrite tagged_at, (find_tag_none _ _ F q). reflexivity.
Qed.
End Scanner.

(** The last item of the one-line patterns is decided by [line_stop]. *)
Lemma line_stops_spec (t : string) (st : nat) (s : string) (i : nat)
      (g : list Re.span) :
  if line_stop s
  then exists e,
      Re.sre_match parse_flags (Re.Alt newline Re.Eol) (Re.accept t st) s i g
      = Some (Re.Match t (st, e) g)
  else Re.sre_match parse_flags (Re.Alt newline Re.Eol) (Re.accept t st) s i g = None.
Proof.
  unfold line_stop, newline. cbn [Re.sre_match].
  destruct s as [|c s].
  - simpl. eexists. reflexivity.
  - cbn [Re.in_charset Re.IGNORECASE parse_flags].
    change (tolower "010") with "010"%char. rewrite tolower_newline.
    change (startswith nl (String c s)) with (Ascii.eqb "010" c && true).
    rewrite andb_true_r, (Ascii.eqb_sym "010" c).
    destruct (Ascii.eqb c "010") eqn:Hc.
    + simpl. eexists. reflexivity.
    + unfold Re.at_end. change (String.eqb (String c s) "") with false.
      cbn [orb]. unfold nl. cbn [String.eqb]. rewrite Hc. reflexivity.
Qed.

Lemma patterns_scan (text key : string) (pattern : Re.regex)
      (tag : string) (stop : string -> bool) :
  In (key, pattern) patterns ->
  In (key, (tag, stop)) scanners ->
  option_map (fun m => Re.group m 1) (Re.search pattern text parse_flags)
  = scan_group tag stop text.
Proof.
  unfold patterns, scanners. cbn [In].
  intros [P|[P|[P|[P|[P|[]]]]]] [S|[S|[S|[S|[S|[]]]]]];
    injection P as <- <-; try discriminate S; injection S as <- <-;
    [ exact (@tagged_search_scan "SENDER:" _ line_stop line_stops_spec eq_refl text)
    | exact (@tagged_search_scan "TYPE:" _ line_stop line_stops_spec eq_refl text)
    | exact (@tagged_search_scan "AIRCRAFT:" _ line_stop line_stops_spec eq_refl text)
    | exact (@tagged_search_scan "DETAILS:" _ details_stop details_stops_spec eq_refl text)
    | exact (@tagged_search_scan "RESPONSE:" _ line_stop line_stops_spec eq_refl text) ].
Qed.

Lemma field_of_scanned (text key : string) (pattern : Re.regex) (tag : string)
      (stop : string -> bool) (old : pyval) :
  In (key, pattern) patterns ->
  In (key, (tag, stop)) scanners ->
  field_of text pattern old = scanned_field tag stop text old.
Proof.
  intros P S. unfold field_of, scanned_field.
  rewrite <- (@patterns_scan text key pattern tag stop P S).
  destruct (Re.search pattern text parse_flags); reflexivity.
Qed.

Lemma scanners_cover (key tag : string) (stop : string -> bool) :
  In (key, (tag, stop)) scanners ->
  exists pattern d,
    In (key, pattern) patterns /\ dict_get defaults key = Some (PStr d).
Proof.
  unfold scanners. cbn [In].
  intros [S|[S|[S|[S|[S|[]]]]]]; injection S as <- _ _;
    do 2 eexists; (split; [|reflexivity]); simpl; eauto 10.
Qed.

Lemma find_tag_absent (tag s : string) :
  (forall q, istartswith tag (drop q s) = false) -> find_tag tag s = None.
Proof.
  induction s as [|c s IH]; intros H; simpl.
  - pose proof (H 0) as H0. cbn [drop] in H0. now rewrite H0.
  - pose proof (H 0) as H0. cbn [drop] in H0. rewrite H0.
    rewrite IH; [reflexivity|]. intros q. exact (H (S q)).
Qed.

Lemma find_tag_at (tag s : string) (p : nat) :
  istartswith tag (drop p s) = true ->
  (forall q, q < p -> istartswith tag (drop q s) = false) ->
  p <= String.length s ->
  find_tag tag s = Some p.
Proof.
  revert s. induction p as [|p IH]; intros s Hp Hbefore Hlen.
  - cbn [drop] in Hp. destruct s; simpl; now rewrite Hp.
  - destruct s as [|c s]; [simpl in Hlen; lia|].
    pose proof (Hbefore 0 ltac:(lia)) as H0. cbn [drop] in H0.
    cbn [find_tag]. rewrite H0.
    rewrite (IH s); [reflexivity | exact Hp | | simpl in Hlen; lia].
    intros q Hq. exact (Hbefore (S q) ltac:(lia)).
Qed.

Lemma length_append (a b : string) :
  String.length (a ++ b) = String.length a + String.length b.
Proof. induction a as [|c a IH]; simpl; [reflexivity | now rewrite IH]. Qed.

Lemma drop_append (a b : string) : drop (String.length a) (a ++ b) = b.
Proof. induction a as [|c a IH]; [reflexivity | exact IH]. Qed.

Lemma take_append (a b : string) : take (String.length a) (a ++ b) = a.
Proof.
  induction a as [|c a IH]; simpl; [now destruct b | now rewrite IH].
Qed.

Lemma istartswith_append (p a b : string) :
  istartswith p a = true -> istartswith p (a ++ b) = true.
Proof.
  revert a. induction p as [|x p IH]; intros a H; [reflexivity|].
  destruct a as [|y a]; simpl in *; [discriminate|].
  apply andb_true_iff in H as [H1 H2]. now rewrite H1, IH.
Qed.

Lemma lstrip_blank_prefix (ws : string) (c : ascii) (x : string) :
  blank ws -> isspace c = false -> lstrip (ws ++ String c x) = String c x.
Proof.
  intros Hws Hc. induction ws as [|d ws IH]; simpl.
  - now rewrite Hc.
  - rewrite (Hws 0 d eq_refl). apply IH. intros i e He. exact (Hws (S i) e He).
Qed.

Lemma value_len_at_stop (stop : string -> bool) (s : string) :
  stop s = true -> value_len stop s = 0.
Proof. intros H. destruct s; simpl; now rewrite H. Qed.

Lemma value_len_append (stop : string -> bool) (r suf : string) :
  (forall j, j < String.length r -> stop (drop j r ++ suf) = false) ->
  stop suf = true ->
  value_len stop (r ++ suf) = String.length r.
Proof.
  intros Hin Hsuf. induction r as [|c r IH].
  - now apply value_len_at_stop.
  - pose proof (Hin 0 ltac:(simpl; lia)) as H0. cbn [drop] in H0.
    change (String c r ++ suf) with (String c (r ++ suf)) in *.
    cbn [value_len]. rewrite H0. cbn [String.length]. f_equal. apply IH.
    intros j Hj. exact (Hin (S j) ltac:(simpl; lia)).
Qed.

(** A dictionary is fixed by its keys, when they are distinct, and the
    values under them. *)
Lemma dict_ext (d d' : dict) :
  keys d = keys d' -> NoDup (keys d) ->
  (forall k, In k (keys d) -> dict_get d k = dict_get d' k) ->
  d = d'.
Proof.
  revert d'. induction d as [|[k v] d IH]; intros [|[k' v'] d'] K N G;
    try discriminate; [reflexivity|].
  simpl in K. injection K as <- K. inversion N as [|? ? Hnot N']; subst.
  pose proof (G k (or_introl eq_refl)) as Gk. simpl in Gk.
  rewrite String.eqb_refl in Gk. injection Gk as <-.
  f_equal. apply IH; [exact K | exact N'|].
  intros k0 Hk0. specialize (G k0 (or_intror Hk0)). simpl in G.
  destruct (String.eqb k k0) eqn:E; [|exact G].
  apply String.eqb_eq in E. subst k0. contradiction.
Qed.

Lemma parse_by_scanning (text : string) :
  text <> "" -> str_contains "Error:" text = false ->
  parse_response (PStr text)
  = inr [("sender", scanned_field "SENDER:" line_stop text (PStr "Unknown"));
         ("type", scanned_field "TYPE:" line_stop text (PStr "Unknown"));
         ("aircraft", scanned_field "AIRCRAFT:" line_stop text (PStr "Not specified"));
         ("details",
          scanned_field "DETAILS:" details_stop text (PStr "No details provided"));
         ("response",
          scanned_field "RESPONSE:" line_stop text (PStr "No response generated"))].
Proof.
  intros Hne Herr. destruct (parse_fields Hne Herr) as (parsed & P & K & F).
  rewrite P. f_equal. apply dict_ext.
  - exact K.
  - rewrite K. exact patterns_nodup.
  - intros k Hk. rewrite K in Hk. simpl in Hk.
    destruct Hk as [<-|[<-|[<-|[<-|[<-|[]]]]]].
    + rewrite (F "sender" _ (PStr "Unknown") ltac:(simpl; eauto 10) eq_refl).
      erewrite field_of_scanned; [reflexivity | simpl; eauto 10 | simpl; eauto 10].
    + rewrite (F "type" _ (PStr "Unknown") ltac:(simpl; eauto 10) eq_refl).
      erewrite field_of_scanned; [reflexivity | simpl; eauto 10 | simpl; eauto 10].
    + rewrite (F "aircraft" _ (PStr "Not specified") ltac:(simpl; eauto 10) eq_refl).
      erewrite field_of_scanned; [reflexivity | simpl; eauto 10 | simpl; eauto 10].
    + rewrite (F "details" _ (PStr "No details provided") ltac:(simpl; eauto 10) eq_refl).
      erewrite field_of_scanned; [reflexivity | simpl; eauto 10 | simpl; eauto 10].
    + rewrite (F "response" _ (PStr "No response generated") ltac:(simpl; eauto 10) eq_refl).
      erewrite field_of_scanned; [reflexivity | simpl; eauto 10 | simpl; eauto 10].
Qed.

(** ** Trimmed, one-line values *)

Lemma rstrip_idem (s : string) : rstrip (rstrip s) = rstrip s.
Proof.
  induction s as [|c s IH]; [reflexivity|]. cbn [rstrip].
  destruct (isspace c && String.eqb (rstrip s) "") eqn:E; [reflexivity|].
  cbn [rstrip]. rewrite IH, E. reflexivity.
Qed.

Lemma strip_idem (s : string) : strip (strip s) = strip s.
Proof.
  unfold strip. destruct (lstrip_head s) as [E | (c & r & E & Hc)]; rewrite E.
  - reflexivity.
  - cbn [rstrip]. rewrite Hc. cbn [andb]. cbn [lstrip]. rewrite Hc.
    change (rstrip (String c (rstrip r)))
      with (if isspace c && String.eqb (rstrip (rstrip r)) "" then ""
            else String c (rstrip (rstrip r))).
    rewrite Hc, rstrip_idem. reflexivity.
Qed.

Lemma contains_nl_cons (c : ascii) (s : string) :
  str_contains nl (String c s) = Ascii.eqb "010" c || str_contains nl s.
Proof.
  unfold nl. cbn [str_contains startswith]. now rewrite andb_true_r.
Qed.

Lemma nl_lstrip (s : string) :
  str_contains nl s = false -> str_contains nl (lstrip s) = false.
Proof.
  induction s as [|c s IH]; [auto|]. intros H. cbn [lstrip].
  destruct (isspace c); [|exact H].
  rewrite contains_nl_cons in H. apply orb_false_iff in H as [_ H]. auto.
Qed.

Lemma nl_rstrip (s : string) :
  str_contains nl s = false -> str_contains nl (rstrip s) = false.
Proof.
  induction s as [|c s IH]; [auto|]. intros H. cbn [rstrip].
  rewrite contains_nl_cons in H. apply orb_false_iff in H as [Hc H].
  destruct (isspace c && String.eqb (rstrip s) ""); [reflexivity|].
  rewrite contains_nl_cons, Hc. cbn [orb]. auto.
Qed.

Lemma nl_strip (s : string) :
  str_contains nl s = false -> str_contains nl (strip s) = false.
Proof. intros H. unfold strip. now apply nl_rstrip, nl_lstrip. Qed.

Lemma take_value_no_nl (stop : string -> bool) (r : string) :
  (forall s, startswith nl s = true -> stop s = true) ->
  str_contains nl (take (value_len stop r) r) = false.
Proof.
  intros Hstop. induction r as [|c r IH]; cbn [value_len].
  - now destruct (stop "").
  - destruct (stop (String c r)) eqn:E; [reflexivity|].
    cbn [take]. rewrite contains_nl_cons, IH, orb_false_r.
    destruct (Ascii.eqb "010" c) eqn:Hc; [|reflexivity].
    rewrite Hstop in E; [discriminate|]. unfold nl. cbn [startswith].
    now rewrite Hc.
Qed.

Lemma lstrip_drop_blank (s : string) (k : nat) :
  lstrip s = "" -> lstrip (drop k s) = "".
Proof.
  revert s. induction k as [|k IH]; intros s H; [exact H|].
  destruct s as [|c s]; [reflexivity|]. cbn [drop]. apply IH.
  simpl in H. now destruct (isspace c).
Qed.

Lemma accepted_nonempty (v : string) : accepted v = true -> v <> "".
Proof. unfold accepted. intros H ->. discriminate. Qed.

(** A scanned field is a non-empty, trimmed, one-line text when the default
    is, for a stop that holds before every line break. *)
Lemma scanned_field_clean (tag : string) (stop : string -> bool) (text d v : string) :
  (forall s, startswith nl s = true -> stop s = true) ->
  d <> "" /\ strip d = d /\ str_contains nl d = false ->
  scanned_field tag stop text (PStr d) = PStr v ->
  v <> "" /\ strip v = v /\ str_contains nl v = false.
Proof.
  intros Hstop Hd. unfold scanned_field, scan_group.
  assert (Hold : PStr d = PStr v -> v <> "" /\ strip v = v /\ str_contains nl v = false)
    by (intros [= <-]; exact Hd).
  destruct (find_tag tag text) as [p|]; [|exact Hold].
  cbv zeta. set (rest := drop (p + String.length tag) text).
  destruct (lstrip_head rest) as [E | (c & r & E & Hc)]; rewrite E.
  - destruct rest as [|c0 rest0] eqn:R; [exact Hold|].
    unfold last_char, strip. rewrite (@lstrip_drop_blank _ _ E). exact Hold.
  - destruct (accepted (strip (String c (take (value_len stop r) r)))) eqn:A;
      [|exact Hold].
    intros [= <-]. split; [now apply accepted_nonempty|]. split; [apply strip_idem|].
    apply nl_strip. rewrite contains_nl_cons, take_value_no_nl by exact Hstop.
    rewrite orb_false_r. destruct (Ascii.eqb "010" c) eqn:Hn; [|reflexivity].
    apply Ascii.eqb_eq in Hn. subst c. discriminate.
Qed.

Lemma line_stop_before_nl (s : string) : startswith nl s = true -> line_stop s = true.
Proof. intros H. unfold line_stop. rewrite H. apply orb_true_r. Qed.

Lemma details_stop_before_nl (s : string) :
  startswith nl s = true -> details_stop s = true.
Proof. intros H. unfold details_stop. rewrite H. now rewrite orb_true_r. Qed.

(** ** What a scanned field is in the two plain cases *)

Lemma scanned_field_absent (tag : string) (stop : string -> bool) (text : string)
      (old : pyval) :
  (forall q, istartswith tag (drop q text) = false) ->
  scanned_field tag stop text old = old.
Proof.
  intros H. unfold scanned_field, scan_group. now rewrite (find_tag_absent _ _ H).
Qed.

Lemma scanned_field_first_line (tag : string) (stop : string -> bool) (text : string)
      (old : pyval) (pre tag' ws : string) (c : ascii) (r suf : string) :
  text = pre ++ tag' ++ ws ++ String c r ++ suf ->
  (forall q, q < String.length pre -> istartswith tag (drop q text) = false) ->
  String.length tag' = String.length tag ->
  istartswith tag tag' = true ->
  blank ws ->
  isspace c = false ->
  (forall j, j < String.length r -> stop (drop j r ++ suf) = false) ->
  stop suf = true ->
  scanned_field tag stop text old
  = if accepted (strip (String c r)) then PStr (strip (String c r)) else old.
Proof.
  intros Htext Hbefore Hlen Htag Hws Hc Hin Hsuf.
  unfold scanned_field, scan_group.
  assert (Hdrop : drop (String.length pre) text = tag' ++ ws ++ String c r ++ suf)
    by (rewrite Htext; apply drop_append).
  rewrite (@find_tag_at tag text (String.length pre)).
  - cbv zeta. rewrite <- drop_drop, Hdrop, <- Hlen, drop_append.
    change (String c r ++ suf) with (String c (r ++ suf)).
    rewrite (@lstrip_blank_prefix ws c (r ++ suf) Hws Hc).
    rewrite (@value_len_append stop r suf Hin Hsuf), take_append. reflexivity.
  - rewrite Hdrop. now apply istartswith_append.
  - exact Hbefore.
  - rewrite Htext, length_append. lia.
Qed.

Lemma scanned_field_text (tag : string) (stop : string -> bool) (text d : string) :
  exists v, scanned_field tag stop text (PStr d) = PStr v.
Proof.
  unfold scanned_field. destruct (scan_group tag stop text); [|eauto].
  destruct (accepted _); eauto.
Qed.

(** Looking a key up in the five scanned fields. *)
Lemma scanned_dict_get (text key tag : string) (stop : string -> bool) (old : pyval) :
  In (key, (tag, stop)) scanners ->
  dict_get defaults key = Some old ->
  dict_get
    [("sender", scanned_field "SENDER:" line_stop text (PStr "Unknown"));
     ("type", scanned_field "TYPE:" line_stop text (PStr "Unknown"));
     ("aircraft", scanned_field "AIRCRAFT:" line_stop text (PStr "Not specified"));
     ("details", scanned_field "DETAILS:" details_stop text (PStr "No details provided"));
     ("response", scanned_field "RESPONSE:" line_stop text (PStr "No response generated"))]
    key
  = Some (scanned_field tag stop text old).
Proof.
  unfold scanners. cbn [In].
  intros [S|[S|[S|[S|[S|[]]]]]]; injection S as <- <- <-;
    intros [= <-]; reflexivity.
Qed.

(* ================================================================== *)
(** * Further results on the parser *)

(** C6: on every text [parse_response] returns, and the result has the five
    keys sender, type, aircraft, details, response, each with a text value.
    On the empty reply and on a reply that holds [Error:] the fields are the
    defaults, with the reply (or [No response received]) as details.  On
    every other reply each field is decided by its own tag alone, whatever
    the other tags are and in whatever order they come, and is what a plain
    scan of the reply gives: the default when the tag stands nowhere,
    letter case ignored; and when the first occurrence of the tag is
    followed by white space, a value and a stop, that value trimmed if it is
    accepted, the default otherwise. *)
Theorem C6_five_keys_always (text : string) :
  exists parsed,
    parse_response (PStr text) = inr parsed
    /\ keys parsed = ["sender"; "type"; "aircraft"; "details"; "response"]
    /\ (forall key, In key (keys parsed) ->
                    exists value, dict_get parsed key = Some (PStr value))
    /\ (text <> "" -> str_contains "Error:" text = false ->
        forall key pattern old,
          In (key, pattern) patterns -> dict_get defaults key = Some old ->
          dict_get parsed key = Some (field_of text pattern old))
    /\ (text <> "" -> str_contains "Error:" text = false ->
        parsed
        = [("sender", scanned_field "SENDER:" line_stop text (PStr "Unknown"));
           ("type", scanned_field "TYPE:" line_stop text (PStr "Unknown"));
           ("aircraft",
            scanned_field "AIRCRAFT:" line_stop text (PStr "Not specified"));
           ("details",
            scanned_field "DETAILS:" details_stop text (PStr "No details provided"));
           ("response",
            scanned_field "RESPONSE:" line_stop text (PStr "No response generated"))])
    /\ (text <> "" -> str_contains "Error:" text = false ->
        forall key tag stop old,
          In (key, (tag, stop)) scanners -> dict_get defaults key = Some old ->
          (forall q, istartswith tag (drop q text) = false) ->
          dict_get parsed key = Some old)
    /\ (text <> "" -> str_contains "Error:" text = false ->
        forall key tag stop old pre tag' ws c r suf,
          In (key, (tag, stop)) scanners -> dict_get defaults key = Some old ->
          text = pre ++ tag' ++ ws ++ String c r ++ suf ->
          (forall q, q < String.length pre -> istartswith tag (drop q text) = false) ->
          String.length tag' = String.length tag ->
          istartswith tag tag' = true ->
          blank ws ->
          isspace c = false ->
          (forall j, j < String.length r -> stop (drop j r ++ suf) = false) ->
          stop suf = true ->
          dict_get parsed key
          = Some (if accepted (strip (String c r))
                  then PStr (strip (String c r)) else old))
    /\ (text = "" \/ str_contains "Error:" text = true ->
        parsed
        = unparsed (if String.eqb text "" then "No response received" else text)).
Proof.
  destruct (String.eqb text "") eqn:E;
    [|destruct (str_contains "Error:" text) eqn:C].
  - (* the empty reply *)
    pose proof E as E'. apply String.eqb_eq in E'.
    rewrite parse_response_short by now left. rewrite E.
    eexists. split; [reflexivity|]. split; [reflexivity|]. split.
    { simpl. intros key [<-|[<-|[<-|[<-|[<-|[]]]]]]; simpl; eauto. }
    repeat split; try (intros H; congruence).
  - (* a reply that holds Error: *)
    rewrite parse_response_short by now right. rewrite E.
    eexists. split; [reflexivity|]. split; [reflexivity|]. split.
    { simpl. intros key [<-|[<-|[<-|[<-|[<-|[]]]]]]; simpl; eauto. }
    repeat split; try (intros _ H; congruence).
  - (* a reply that reaches the extraction *)
    apply String.eqb_neq in E.
    destruct (parse_fields E C) as (parsed & P & K & F).
    pose proof (parse_by_scanning E C) as Q. rewrite P in Q. injection Q as Q.
    exists parsed. split; [exact P|]. split; [exact K|]. split.
    { intros key Hkey. rewrite K in Hkey.
      destruct (patterns_cover Hkey) as (pattern & d & Hin & Hd).
      rewrite (F key pattern (PStr d) Hin Hd).
      unfold field_of. destruct (Re.search pattern text parse_flags); [|eauto].
      cbv zeta. destruct (accepted _); eauto. }
    split; [intros _ _; exact F|].
    split; [intros _ _; exact Q|].
    split.
    { intros _ _ key tag stop old S Hold Habsent.
      rewrite Q, (scanned_dict_get text S Hold).
      now rewrite scanned_field_absent. }
    split.
    { intros _ _ key tag stop old pre tag' ws c r suf S Hold
             Htext Hbefore Hlen Htag Hws Hc Hin Hsuf.
      rewrite Q, (scanned_dict_get text S Hold).
      now rewrite (@scanned_field_first_line tag stop text old pre tag' ws c r suf). }
    intros [H|H]; congruence.
Qed.

(** X1: on the text of the model (code points below U+0100), for each of
    the five keys, group 1 of the first match of its pattern is what a plain
    scan reads: go to the first occurrence of the tag, in upper or lower
    case letters, skip the white space after it, take the next character
    and what follows up to the first stop of the key. *)
Theorem X1_patterns_agree_with_scanner (text key : string) (pattern : Re.regex)
        (tag : string) (stop : string -> bool) :
  In (key, pattern) patterns ->
  In (key, (tag, stop)) scanners ->
  option_map (fun m => Re.group m 1) (Re.search pattern text parse_flags)
  = scan_group tag stop text.
Proof. apply patterns_scan. Qed.

Lemma X1_patterns_agree_with_scanner_witness :
  In ("details", details_pattern) patterns
  /\ In ("details", ("DETAILS:", details_stop)) scanners
  /\ option_map (fun m => Re.group m 1)
       (Re.search details_pattern two_line_details parse_flags)
     = scan_group "DETAILS:" details_stop two_line_details.
Proof.
  assert (P : In ("details", details_pattern) patterns) by (simpl; tauto).
  assert (S : In ("details", ("DETAILS:", details_stop)) scanners) by (simpl; tauto).
  split; [exact P|]. split; [exact S|].
  exact (@X1_patterns_agree_with_scanner two_line_details "details" details_pattern
           "DETAILS:" details_stop P S).
Defined.

(** X2: on a reply of code points below U+0100 that reaches the extraction
    (not empty, no [Error:]) [parse_response] returns exactly the five
    scanned fields, each with its own default. *)
Theorem X2_parse_response_by_scanning (text : string) :
  text <> "" -> str_contains "Error:" text = false ->
  parse_response (PStr text)
  = inr [("sender", scanned_field "SENDER:" line_stop text (PStr "Unknown"));
         ("type", scanned_field "TYPE:" line_stop text (PStr "Unknown"));
         ("aircraft", scanned_field "AIRCRAFT:" line_stop text (PStr "Not specified"));
         ("details",
          scanned_field "DETAILS:" details_stop text (PStr "No details provided"));
         ("response",
          scanned_field "RESPONSE:" line_stop text (PStr "No response generated"))].
Proof. apply parse_by_scanning. Qed.

Lemma X2_parse_response_by_scanning_witness :
  two_line_details <> ""
  /\ str_contains "Error:" two_line_details = false
  /\ parse_response (PStr two_line_details)
     = inr [("sender", scanned_field "SENDER:" line_stop two_line_details (PStr "Unknown"));
            ("type", scanned_field "TYPE:" line_stop two_line_details (PStr "Unknown"));
            ("aircraft",
             scanned_field "AIRCRAFT:" line_stop two_line_details (PStr "Not specified"));
            ("details",
             scanned_field "DETAILS:" details_stop two_line_details
                           (PStr "No details provided"));
            ("response",
             scanned_field "RESPONSE:" line_stop two_line_details
                           (PStr "No response generated"))].
Proof.
  assert (Hne : two_line_details <> "") by discriminate.
  split; [exact Hne|]. split; [reflexivity|].
  exact (@X2_parse_response_by_scanning two_line_details Hne eq_refl).
Defined.

(** X3: on a reply of code points below U+0100 that reaches the
    extraction, a field whose tag stands nowhere in the reply, in upper or
    lower case letters, keeps its default. *)
Theorem X3_absent_tag_keeps_default (text key tag : string) (stop : string -> bool)
        (old : pyval) :
  In (key, (tag, stop)) scanners ->
  dict_get defaults key = Some old ->
  text <> "" -> str_contains "Error:" text = false ->
  (forall q, istartswith tag (drop q text) = false) ->
  exists parsed,
    parse_response (PStr text) = inr parsed /\ dict_get parsed key = Some old.
Proof.
  intros S Hold Hne Herr Habsent.
  destruct (parse_fields Hne Herr) as (parsed & P & _ & F).
  exists parsed. split; [exact P|].
  destruct (scanners_cover S) as (pattern & d & Hin & _).
  rewrite (F key pattern old Hin Hold), (field_of_scanned text old Hin S).
  unfold scanned_field, scan_group. now rewrite (find_tag_absent _ _ Habsent).
Qed.

Lemma X3_absent_tag_keeps_default_witness :
  In ("aircraft", ("AIRCRAFT:", line_stop)) scanners
  /\ two_line_details <> ""
  /\ (forall q, istartswith "AIRCRAFT:" (drop q two_line_details) = false)
  /\ exists parsed,
      parse_response (PStr two_line_details) = inr parsed
      /\ dict_get parsed "aircraft" = Some (PStr "Not specified").
Proof.
  assert (S : In ("aircraft", ("AIRCRAFT:", line_stop)) scanners) by (simpl; tauto).
  assert (Hne : two_line_details <> "") by discriminate.
  assert (Habsent : forall q, istartswith "AIRCRAFT:" (drop q two_line_details) = false)
    by (apply find_tag_none; reflexivity).
  split; [exact S|]. split; [exact Hne|]. split; [exact Habsent|].
  exact (@X3_absent_tag_keeps_default two_line_details "aircraft" "AIRCRAFT:" line_stop
           (PStr "Not specified") S eq_refl Hne eq_refl Habsent).
Defined.

(** X4: on a reply of code points below U+0100 the first occurrence of a
    tag decides its field.  When no earlier occurrence exists and the tag,
    in upper or lower case letters, is followed by white
    space, a character that is not white space, further characters with no
    stop among them, and then a stop, the field is that value trimmed if it
    is accepted, and the default otherwise, whatever comes after the
    stop. *)
Theorem X4_first_tag_line_is_read (text key tag : string) (stop : string -> bool)
        (old : pyval) (pre tag' ws : string) (c : ascii) (r suf : string) :
  In (key, (tag, stop)) scanners ->
  dict_get defaults key = Some old ->
  text = pre ++ tag' ++ ws ++ String c r ++ suf ->
  str_contains "Error:" text = false ->
  (forall q, q < String.length pre -> istartswith tag (drop q text) = false) ->
  String.length tag' = String.length tag ->
  istartswith tag tag' = true ->
  blank ws ->
  isspace c = false ->
  (forall j, j < String.length r -> stop (drop j r ++ suf) = false) ->
  stop suf = true ->
  exists parsed,
    parse_response (PStr text) = inr parsed
    /\ dict_get parsed key
       = Some (if accepted (strip (String c r)) then PStr (strip (String c r)) else old).
Proof.
  intros S Hold Htext Herr Hbefore Hlen Htag Hws Hc Hin Hsuf.
  assert (Hne : text <> "").
  { rewrite Htext. intros E. apply (f_equal String.length) in E.
    rewrite !length_append in E. simpl in E. lia. }
  destruct (parse_fields Hne Herr) as (parsed & P & _ & F).
  exists parsed. split; [exact P|].
  destruct (scanners_cover S) as (pattern & d & Hpat & _).
  rewrite (F key pattern old Hpat Hold), (field_of_scanned text old Hpat S).
  unfold scanned_field, scan_group.
  assert (Hdrop : drop (String.length pre) text = tag' ++ ws ++ String c r ++ suf)
    by (rewrite Htext; apply drop_append).
  rewrite (@find_tag_at tag text (String.length pre)).
  - cbv zeta. rewrite <- drop_drop, Hdrop, <- Hlen, drop_append.
    change (String c r ++ suf) with (String c (r ++ suf)).
    rewrite (@lstrip_blank_prefix ws c (r ++ suf) Hws Hc).
    rewrite (@value_len_append stop r suf Hin Hsuf), take_append. reflexivity.
  - rewrite Hdrop. now apply istartswith_append.
  - exact Hbefore.
  - rewrite Htext, length_append. lia.
Qed.

Lemma X4_first_tag_line_is_read_witness :
  In ("aircraft", ("AIRCRAFT:", line_stop)) scanners
  /\ blank " "
  /\ isspace "N" = false
  /\ line_stop (nl ++ "AIRCRAFT: other") = true
  /\ exists parsed,
      parse_response (PStr ("Aircraft:" ++ " " ++ "N123AB" ++ nl ++ "AIRCRAFT: other"))
      = inr parsed
      /\ dict_get parsed "aircraft" = Some (PStr "N123AB").
Proof.
  assert (S : In ("aircraft", ("AIRCRAFT:", line_stop)) scanners) by (simpl; tauto).
  assert (Hws : blank " ").
  { intros i x H. destruct i as [|i]; simpl in H;
      [injection H as <-; reflexivity | discriminate]. }
  assert (Hbefore : forall q, q < String.length "" ->
            istartswith "AIRCRAFT:"
              (drop q ("Aircraft:" ++ " " ++ "N123AB" ++ nl ++ "AIRCRAFT: other")) = false)
    by (intros q Hq; simpl in Hq; lia).
  assert (Hin : forall j, j < String.length "123AB" ->
            line_stop (drop j "123AB" ++ (nl ++ "AIRCRAFT: other")) = false).
  { intros j Hj. do 5 (destruct j as [|j]; [reflexivity|]). simpl in Hj. lia. }
  split; [exact S|]. split; [exact Hws|]. split; [reflexivity|]. split; [reflexivity|].
  exact (@X4_first_tag_line_is_read
           ("Aircraft:" ++ " " ++ "N123AB" ++ nl ++ "AIRCRAFT: other")
           "aircraft" "AIRCRAFT:" line_stop (PStr "Not specified")
           "" "Aircraft:" " " "N" "123AB" (nl ++ "AIRCRAFT: other")
           S eq_refl eq_refl eq_refl Hbefore eq_refl eq_refl Hws eq_refl Hin eq_refl).
Defined.

(** X5: on a reply that reaches the extraction every field of the result is
    a text that is not empty, has no white space at either end and holds no
    line break. *)
Theorem X5_fields_are_clean (text : string) :
  text <> "" -> str_contains "Error:" text = false ->
  exists parsed,
    parse_response (PStr text) = inr parsed
    /\ forall key value,
        dict_get parsed key = Some value ->
        exists v, value = PStr v
                  /\ v <> "" /\ strip v = v /\ str_contains nl v = false.
Proof.
  intros Hne Herr. rewrite (parse_by_scanning Hne Herr).
  eexists. split; [reflexivity|].
  intros key value H.
  assert (Hfield : forall tag stop d,
             (forall s, startswith nl s = true -> stop s = true) ->
             d <> "" /\ strip d = d /\ str_contains nl d = false ->
             scanned_field tag stop text (PStr d) = value ->
             exists v, value = PStr v
                       /\ v <> "" /\ strip v = v /\ str_contains nl v = false).
  { intros tag stop d Hstop Hd E.
    assert (Hv : exists v, scanned_field tag stop text (PStr d) = PStr v).
    { unfold scanned_field. destruct (scan_group tag stop text); [|eauto].
      destruct (accepted _); eauto. }
    destruct Hv as [v Hv]. exists v. split; [congruence|].
    exact (@scanned_field_clean tag stop text d v Hstop Hd Hv). }
  cbn [dict_get] in H.
  repeat match type of H with
         | (if ?b then _ else _) = _ => destruct b
         end;
    try discriminate; injection H as H;
    (eapply Hfield; [| |exact H];
     [first [exact line_stop_before_nl | exact details_stop_before_nl]
     | repeat split; discriminate || reflexivity]).
Qed.

Lemma X5_fields_are_clean_witness :
  emergency_reply <> ""
  /\ str_contains "Error:" emergency_reply = false
  /\ exists parsed,
      parse_response (PStr emergency_reply) = inr parsed
      /\ forall key value,
          dict_get parsed key = Some value ->
          exists v, value = PStr v
                    /\ v <> "" /\ strip v = v /\ str_contains nl v = false.
Proof.
  assert (Hne : emergency_reply <> "") by discriminate.
  split; [exact Hne|]. split; [reflexivity|].
  exact (@X5_fields_are_clean emergency_reply Hne eq_refl).
Defined.

(** X6: [parse_response] raises exactly on what is neither text nor a list,
    and on a list that is not empty and has no element equal to [Error:].
    For [None] it is the slice of the second logging statement that raises,
    before the test for an empty reply is reached. *)
Theorem X6_parse_response_raises_iff (v : pyval) :
  (exists e, parse_response v = inl e)
  <-> match v with
      | PStr _ => False
      | PList l => l <> [] /\ existsb (eq_str "Error:") l = false
      | _ => True
      end.
Proof.
  destruct v as [|b|z|f|s|l|d].
  - split; [trivial|]. intros _. eexists. reflexivity.
  - split; [trivial|]. intros _. destruct b; eexists; reflexivity.
  - split; [trivial|]. intros _. unfold parse_response.
    destruct (truthy (PInt z)); eexists; reflexivity.
  - split; [trivial|]. intros _. unfold parse_response.
    destruct (truthy (PFloat f)); eexists; reflexivity.
  - split; [|contradiction]. intros [e He].
    destruct (parse_response_total s) as (parsed & P & _). congruence.
  - destruct l as [|x l].
    + split; [intros [e He]; discriminate | intros [H _]; congruence].
    + unfold parse_response. cbn [truthy py_len py_prefix bind ret negb py_contains].
      destruct (existsb (eq_str "Error:") (x :: l)) eqn:E.
      * split; [intros [e He]; discriminate | intros [_ H]; discriminate].
      * split; [intros _; split; [discriminate | reflexivity]|].
        intros _. eexists. reflexivity.
  - split; [trivial|]. intros _. unfold parse_response.
    destruct (truthy (PDict d)); eexists; reflexivity.
Qed.

(* ================================================================== *)
(** * Further results on the client and the pipeline *)

Lemma call_unfold (self : ATCMessageProcessor) (prompt : string) (w : world) :
  call_ollama_api self prompt w
  = (handle (response <- wire w (sent w) (chat_request self prompt) ;;
             on_response response),
     World (wire w) (sent w ++ [chat_request self prompt])%list).
Proof. reflexivity. Qed.

Lemma handle_error_text (e : exn) : handle (inl e) = PStr (error_text e).
Proof.
  unfold handle, error_text.
  destruct (is_RequestException e); [reflexivity|].
  destruct (is_JSONDecodeError e); reflexivity.
Qed.

Lemma error_text_short (e : exn) :
  parse_response (PStr (error_text e)) = inr (unparsed (error_text e)).
Proof.
  rewrite parse_response_short.
  - unfold error_text. destruct (is_RequestException e); [reflexivity|].
    destruct (is_JSONDecodeError e); reflexivity.
  - right. unfold error_text. destruct (is_RequestException e); [reflexivity|].
    destruct (is_JSONDecodeError e); reflexivity.
Qed.

Lemma call_text_or_list (self : ATCMessageProcessor) (prompt : string) (w : world) :
  (exists s, fst (call_ollama_api self prompt w) = PStr s)
  \/ (exists l, fst (call_ollama_api self prompt w) = PList l).
Proof.
  rewrite call_unfold. cbn [fst].
  destruct (wire w (sent w) (chat_request self prompt)) as [e|r].
  - left. apply handle_raised_text.
  - cbn [bind]. destruct (on_response_cases r) as [Hs | (l & _ & _ & _ & _ & _ & _ & H)];
      [now left | right; eauto].
Qed.

Lemma strip_nonblank (message : string) :
  ~ blank message -> String.eqb (strip message) "" = false.
Proof. intros H. apply String.eqb_neq. now rewrite strip_empty_iff. Qed.

(** X7: when the server answers 200 with a JSON object, [call_ollama_api]
    returns the text under [message.content] as it is, and the empty text
    when the object has no [message] key or the message has no [content]
    key. *)
Theorem X7_reply_content_returned (self : ATCMessageProcessor) (prompt : string)
        (w : world) (r : response) (d : dict) :
  wire w (sent w) (chat_request self prompt) = inr r ->
  status_code r = 200%Z ->
  json r = inr (PDict d) ->
  (forall dm s, dict_get d "message" = Some (PDict dm) ->
                dict_get dm "content" = Some (PStr s) ->
                fst (call_ollama_api self prompt w) = PStr s)
  /\ (dict_get d "message" = None -> fst (call_ollama_api self prompt w) = PStr "")
  /\ (forall dm, dict_get d "message" = Some (PDict dm) ->
                 dict_get dm "content" = None ->
                 fst (call_ollama_api self prompt w) = PStr "").
Proof.
  intros Hw Hst Hj. rewrite call_unfold, Hw. cbn [fst bind].
  unfold on_response. rewrite Hst, Hj. cbn [Z.eqb Pos.eqb bind py_keys ret py_get].
  repeat split.
  - intros dm s Hm Hc. rewrite Hm. cbn [bind py_get ret]. rewrite Hc. reflexivity.
  - intros Hm. rewrite Hm. reflexivity.
  - intros dm Hm Hc. rewrite Hm. cbn [bind py_get ret]. rewrite Hc. reflexivity.
Qed.

Lemma X7_reply_content_returned_witness :
  status_code (Response 200 "" (ret (PDict [("done", PBool true)]))) = 200%Z
  /\ dict_get [("done", PBool true)] "message" = None
  /\ fst (call_ollama_api default_processor "Hello"
            (World (fun _ _ => ret (Response 200 "" (ret (PDict [("done", PBool true)]))))
                   []))
     = PStr "".
Proof.
  split; [reflexivity|]. split; [reflexivity|].
  exact (proj1 (proj2
    (@X7_reply_content_returned default_processor "Hello"
       (World (fun _ _ => ret (Response 200 "" (ret (PDict [("done", PBool true)])))) [])
       (Response 200 "" (ret (PDict [("done", PBool true)])))
       [("done", PBool true)] eq_refl eq_refl eq_refl)) eq_refl).
Defined.

(** X8: an exception raised by the request or by decoding the body of a 200
    reply is turned into text by the first [except] clause that fits, in the
    order written: a [RequestException] gives [Connection Error: ...] even
    when it is a [JSONDecodeError] as well; otherwise a [JSONDecodeError]
    gives [JSON Error: ...]; anything else gives [Unexpected Error: ...]. *)
Theorem X8_except_clauses_in_order (self : ATCMessageProcessor) (prompt : string)
        (w : world) (e : exn) :
  wire w (sent w) (chat_request self prompt) = inl e
  \/ (exists r, wire w (sent w) (chat_request self prompt) = inr r
                /\ status_code r = 200%Z /\ json r = inl e) ->
  (is_RequestException e = true ->
   fst (call_ollama_api self prompt w) = PStr ("Connection Error: " ++ str_e e))
  /\ (is_RequestException e = false -> is_JSONDecodeError e = true ->
      fst (call_ollama_api self prompt w) = PStr ("JSON Error: " ++ str_e e))
  /\ (is_RequestException e = false -> is_JSONDecodeError e = false ->
      fst (call_ollama_api self prompt w) = PStr ("Unexpected Error: " ++ str_e e)).
Proof.
  intros H.
  assert (Hcall : fst (call_ollama_api self prompt w) = handle (inl e)).
  { rewrite call_unfold. cbn [fst].
    destruct H as [Hw | (r & Hw & Hst & Hj)]; rewrite Hw; [reflexivity|].
    cbn [bind]. unfold on_response. rewrite Hst, Hj. reflexivity. }
  rewrite Hcall. unfold handle. repeat split.
  - intros ->. reflexivity.
  - intros -> ->. reflexivity.
  - intros -> ->. reflexivity.
Qed.

Lemma X8_except_clauses_in_order_witness :
  (exists r,
      wire (World (fun _ _ => ret (Response 200 "<html>"
                                     (raise (Exn true true "Expecting value")))) [])
           [] (chat_request default_processor "Hello") = inr r
      /\ status_code r = 200%Z /\ json r = inl (Exn true true "Expecting value"))
  /\ fst (call_ollama_api default_processor "Hello"
            (World (fun _ _ => ret (Response 200 "<html>"
                                      (raise (Exn true true "Expecting value")))) []))
     = PStr "Connection Error: Expecting value".
Proof.
  assert (H : exists r,
      wire (World (fun _ _ => ret (Response 200 "<html>"
                                     (raise (Exn true true "Expecting value")))) [])
           [] (chat_request default_processor "Hello") = inr r
      /\ status_code r = 200%Z /\ json r = inl (Exn true true "Expecting value")).
  { eexists. split; [reflexivity|]. split; reflexivity. }
  split; [exact H|].
  exact (proj1 (@X8_except_clauses_in_order default_processor "Hello"
                  (World (fun _ _ => ret (Response 200 "<html>"
                                            (raise (Exn true true "Expecting value")))) [])
                  (Exn true true "Expecting value") (or_intror H)) eq_refl).
Defined.

(** X9: whatever goes wrong with the request, [classify_message] on a
    message that is not blank still reports success: when the request or the
    decoding of a 200 body raises, or the status is not 200, the result is
    the success dictionary whose data are the defaults with the error text
    as details, and whose raw reply is that text. *)
Theorem X9_failures_surface_in_details (self : ATCMessageProcessor)
        (message sender_type : string) (w : world) (raw : string) :
  ~ blank message ->
  (exists e,
      (wire w (sent w)
            (chat_request self (generate_classification_prompt message sender_type))
       = inl e
       \/ exists r,
           wire w (sent w)
                (chat_request self (generate_classification_prompt message sender_type))
           = inr r
           /\ status_code r = 200%Z /\ json r = inl e)
      /\ raw = error_text e)
  \/ (exists r,
         wire w (sent w)
              (chat_request self (generate_classification_prompt message sender_type))
         = inr r
         /\ status_code r <> 200%Z
         /\ raw = "Error: HTTP " ++ str_of_int (status_code r) ++ " - " ++ text r) ->
  fst (classify_message self message sender_type w)
  = inr (success_result (unparsed raw) (PStr raw)).
Proof.
  intros Hnb Hfail. unfold classify_message. cbn [truthy].
  rewrite (strip_nonblank Hnb). cbn [negb].
  rewrite call_unfold.
  assert (Hraw : handle (response <- wire w (sent w)
                           (chat_request self
                              (generate_classification_prompt message sender_type)) ;;
                         on_response response) = PStr raw
                 /\ parse_response (PStr raw) = inr (unparsed raw)).
  { destruct Hfail as [(e & Hw & ->) | (r & Hw & Hst & ->)].
    - split; [|apply error_text_short].
      rewrite <- handle_error_text.
      destruct Hw as [Hw | (r & Hw & Hst & Hj)]; rewrite Hw; [reflexivity|].
      cbn [bind]. unfold on_response. rewrite Hst, Hj. reflexivity.
    - split.
      + rewrite Hw. cbn [bind]. unfold on_response.
        apply Z.eqb_neq in Hst. rewrite Hst. reflexivity.
      + rewrite parse_response_short by (right; reflexivity). reflexivity. }
  destruct Hraw as [-> P]. cbn [fst]. rewrite P. reflexivity.
Qed.

Lemma X9_failures_surface_in_details_witness :
  ~ blank "Mayday"
  /\ fst (classify_message default_processor "Mayday" "PILOT" failing_world)
     = inr (success_result (unparsed "Error: HTTP 500 - Internal Server Error")
                           (PStr "Error: HTTP 500 - Internal Server Error")).
Proof.
  assert (Hnb : ~ blank "Mayday").
  { intros H. specialize (H 0 "M"%char eq_refl). discriminate. }
  assert (Hst : 500%Z <> 200%Z) by discriminate.
  split; [exact Hnb|].
  exact (@X9_failures_surface_in_details default_processor "Mayday" "PILOT" failing_world
           "Error: HTTP 500 - Internal Server Error" Hnb
           (or_intror (ex_intro _ (Response 500 "Internal Server Error"
                                     (raise (Exn false true "Expecting value")))
                                (conj eq_refl (conj Hst eq_refl))))).
Defined.

(** X10: a 200 reply of the wrong shape never leaves [call_ollama_api] as
    it is: when the body is no JSON object, or [message] is present and no
    object, or [content] is present and neither text nor a list, the result
    is a text that begins with [Unexpected Error: ]. *)
Theorem X10_wrong_shape_is_unexpected_error (self : ATCMessageProcessor)
        (prompt : string) (w : world) (r : response) (result : pyval) :
  wire w (sent w) (chat_request self prompt) = inr r ->
  status_code r = 200%Z ->
  json r = inr result ->
  (forall d, result <> PDict d)
  \/ (exists d message,
         result = PDict d /\ dict_get d "message" = Some message
         /\ forall dm, message <> PDict dm)
  \/ (exists d dm content,
         result = PDict d /\ dict_get d "message" = Some (PDict dm)
         /\ dict_get dm "content" = Some content
         /\ (forall s, content <> PStr s) /\ (forall l, content <> PList l)) ->
  exists detail,
    fst (call_ollama_api self prompt w) = PStr ("Unexpected Error: " ++ detail).
Proof.
  intros Hw Hst Hj Hshape. rewrite call_unfold, Hw. cbn [fst bind].
  unfold on_response. rewrite Hst, Hj. cbn [Z.eqb Pos.eqb bind].
  destruct Hshape as [Hr | [(d & message & -> & Hm & Hnd)
                           | (d & dm & content & -> & Hm & Hc & Hns & Hnl)]].
  - destruct result; try (eexists; reflexivity). exfalso. eapply Hr. reflexivity.
  - cbn [py_keys bind ret py_get]. rewrite Hm.
    destruct message; try (eexists; reflexivity). exfalso. eapply Hnd. reflexivity.
  - cbn [py_keys bind ret py_get]. rewrite Hm. cbn [bind py_get ret]. rewrite Hc.
    destruct content; try (eexists; reflexivity); exfalso;
      [eapply Hns | eapply Hnl]; reflexivity.
Qed.

Lemma X10_wrong_shape_is_unexpected_error_witness :
  (exists d dm content,
      PDict [("model", PStr "gemma3:4b");
             ("message", PDict [("role", PStr "assistant"); ("content", PNone)]);
             ("done", PBool true)] = PDict d
      /\ dict_get d "message" = Some (PDict dm)
      /\ dict_get dm "content" = Some content
      /\ (forall s, content <> PStr s) /\ (forall l, content <> PList l))
  /\ exists detail,
      fst (call_ollama_api default_processor "Hello" (replying_world PNone))
      = PStr ("Unexpected Error: " ++ detail).
Proof.
  assert (H : exists d dm content,
      PDict [("model", PStr "gemma3:4b");
             ("message", PDict [("role", PStr "assistant"); ("content", PNone)]);
             ("done", PBool true)] = PDict d
      /\ dict_get d "message" = Some (PDict dm)
      /\ dict_get dm "content" = Some content
      /\ (forall s, content <> PStr s) /\ (forall l, content <> PList l)).
  { do 3 eexists. split; [reflexivity|]. split; [reflexivity|].
    split; [reflexivity|]. split; intros; discriminate. }
  split; [exact H|].
  exact (@X10_wrong_shape_is_unexpected_error default_processor "Hello"
           (replying_world PNone) _ _ eq_refl eq_refl eq_refl
           (or_intror (or_intror H))).
Defined.

Lemma parse_list_keys (l : list pyval) (parsed : dict) :
  parse_response (PList l) = inr parsed -> keys parsed = keys defaults.
Proof.
  destruct l as [|x l].
  - intros [= <-]. reflexivity.
  - unfold parse_response. cbn [truthy py_len py_prefix bind ret negb py_contains].
    destruct (existsb (eq_str "Error:") (x :: l)); [|discriminate].
    intros [= <-]. reflexivity.
Qed.

(** X11: the three ways [classify_message] can end.  On a blank message it
    returns the empty-input result.  Otherwise it returns the success
    dictionary, with data that have the five keys and with the reply as
    received, unless the reply is a list that is not empty and has no
    element equal to [Error:]: then, and only then, it raises. *)
Theorem X11_classify_outcomes (self : ATCMessageProcessor)
        (message sender_type : string) (w : world) :
  (blank message
   /\ fst (classify_message self message sender_type w) = inr empty_input_result)
  \/ (~ blank message
      /\ exists parsed,
          parse_response
            (fst (call_ollama_api self
                    (generate_classification_prompt message sender_type) w))
          = inr parsed
          /\ keys parsed = ["sender"; "type"; "aircraft"; "details"; "response"]
          /\ fst (classify_message self message sender_type w)
             = inr (success_result parsed
                      (fst (call_ollama_api self
                              (generate_classification_prompt message sender_type) w))))
  \/ (~ blank message
      /\ exists l e,
          fst (call_ollama_api self
                 (generate_classification_prompt message sender_type) w) = PList l
          /\ l <> [] /\ existsb (eq_str "Error:") l = false
          /\ fst (classify_message self message sender_type w) = inl e).
Proof.
  unfold classify_message. cbn [truthy].
  destruct (String.eqb (strip message) "") eqn:B.
  - left. apply String.eqb_eq in B. split; [now apply strip_empty_iff | reflexivity].
  - right. assert (Hnb : ~ blank message).
    { intros H. apply strip_blank in H. rewrite H in B. discriminate. }
    cbn [negb].
    destruct (call_text_or_list self
                (generate_classification_prompt message sender_type) w)
      as [[s Hs] | [l Hl]];
      destruct (call_ollama_api self
                  (generate_classification_prompt message sender_type) w)
        as [raw w'];
      cbn [fst] in *; subst raw.
    + left. split; [exact Hnb|].
      destruct (parse_response_total s) as (parsed & P & K).
      exists parsed. rewrite P. auto.
    + destruct (parse_response (PList l)) as [e|parsed] eqn:P.
      * right. split; [exact Hnb|]. exists l, e.
        destruct l as [|x l]; [discriminate|].
        split; [reflexivity|]. split; [discriminate|]. split; [|reflexivity].
        destruct (existsb (eq_str "Error:") (x :: l)) eqn:E; [|reflexivity].
        unfold parse_response in P.
        cbn [truthy py_len py_prefix bind ret negb py_contains] in P.
        rewrite E in P. discriminate.
      * left. split; [exact Hnb|]. exists parsed.
        split; [reflexivity|]. split; [exact (parse_list_keys _ P) | reflexivity].
Qed.

(** X12: a message that is not blank costs exactly one request: the chat
    request for its prompt, with the 30 second timeout, is added to what was
    sent, whatever the answer is. *)
Theorem X12_one_request_per_classification (self : ATCMessageProcessor)
        (message sender_type : string) (w : world) :
  ~ blank message ->
  snd (classify_message self message sender_type w)
  = World (wire w)
          (sent w ++ [Request (ollama_url self)
                              (payload_of self
                                 (generate_classification_prompt message sender_type))
                              [("Content-Type", "application/json")] 30])%list.
Proof.
  intros Hnb. unfold classify_message. cbn [truthy].
  rewrite (strip_nonblank Hnb). cbn [negb]. rewrite call_unfold.
  destruct (handle _); reflexivity.
Qed.

Lemma X12_one_request_per_classification_witness :
  ~ blank "Mayday"
  /\ snd (classify_message default_processor "Mayday" "PILOT" failing_world)
     = World (wire failing_world)
             (sent failing_world
              ++ [Request (ollama_url default_processor)
                          (payload_of default_processor
                             (generate_classification_prompt "Mayday" "PILOT"))
                          [("Content-Type", "application/json")] 30])%list.
Proof.
  assert (Hnb : ~ blank "Mayday").
  { intros H. specialize (H 0 "M"%char eq_refl). discriminate. }
  split; [exact Hnb|].
  exact (@X12_one_request_per_classification default_processor "Mayday" "PILOT"
           failing_world Hnb).
Defined.

(** X18: a 200 reply whose JSON object has no [message], or a message with
    no [content] or with an empty one, is reported as a success: the data
    are the defaults with [No response received] as details, and the raw
    reply is the empty text. *)
Theorem X18_empty_content_is_success (self : ATCMessageProcessor)
        (message sender_type : string) (w : world) (r : response) (d : dict) :
  ~ blank message ->
  wire w (sent w)
       (chat_request self (generate_classification_prompt message sender_type))
  = inr r ->
  status_code r = 200%Z ->
  json r = inr (PDict d) ->
  dict_get d "message" = None
  \/ (exists dm, dict_get d "message" = Some (PDict dm)
                 /\ (dict_get dm "content" = None
                     \/ dict_get dm "content" = Some (PStr ""))) ->
  fst (classify_message self message sender_type w)
  = inr (success_result (unparsed "No response received") (PStr "")).
Proof.
  intros Hnb Hw Hst Hj Hempty. unfold classify_message. cbn [truthy].
  rewrite (strip_nonblank Hnb). cbn [negb]. rewrite call_unfold, Hw.
  cbn [bind]. unfold on_response. rewrite Hst, Hj.
  cbn [Z.eqb Pos.eqb bind py_keys ret py_get].
  destruct Hempty as [Hm | (dm & Hm & [Hc | Hc])]; rewrite Hm;
    cbn [bind py_get ret]; try rewrite Hc; reflexivity.
Qed.

Lemma X18_empty_content_is_success_witness :
  ~ blank "Mayday"
  /\ dict_get [("done", PBool true)] "message" = None
  /\ fst (classify_message default_processor "Mayday" "PILOT"
            (World (fun _ _ => ret (Response 200 "" (ret (PDict [("done", PBool true)]))))
                   []))
     = inr (success_result (unparsed "No response received") (PStr "")).
Proof.
  assert (Hnb : ~ blank "Mayday").
  { intros H. specialize (H 0 "M"%char eq_refl). discriminate. }
  split; [exact Hnb|]. split; [reflexivity|].
  exact (@X18_empty_content_is_success default_processor "Mayday" "PILOT"
           (World (fun _ _ => ret (Response 200 "" (ret (PDict [("done", PBool true)])))) [])
           (Response 200 "" (ret (PDict [("done", PBool true)])))
           [("done", PBool true)] Hnb eq_refl eq_refl eq_refl (or_introl eq_refl)).
Defined.

(** ** [validate_connection] *)

Lemma validate_unfold (self : ATCMessageProcessor) (w : world) :
  validate_connection self w
  = (handle_test (response <- wire w (sent w) (probe_request self) ;;
                  on_test_response response),
     World (wire w) (sent w ++ [probe_request self])%list).
Proof. reflexivity. Qed.

(** X13: [validate_connection] never raises and always returns a dictionary
    with exactly the keys success and message, a boolean and a text.  It
    reports success exactly when the server answers 200 with a body that
    decodes to a JSON object. *)
Theorem X13_connection_test_verdict (self : ATCMessageProcessor) (w : world) :
  (exists b msg,
      fst (validate_connection self w)
      = PDict [("success", PBool b); ("message", PStr msg)]
      /\ (b = true ->  msg = "Connection successful"))
  /\ (fst (validate_connection self w)
      = PDict [("success", PBool true); ("message", PStr "Connection successful")]
      <-> exists r d,
          wire w (sent w) (probe_request self) = inr r
          /\ status_code r = 200%Z /\ json r = inr (PDict d)).
Proof.
  rewrite validate_unfold. cbn [fst].
  destruct (wire w (sent w) (probe_request self)) as [e|r] eqn:Hw.
  - split; [do 2 eexists; split; [reflexivity | discriminate]|].
    split; [discriminate | intros (r & d & H & _); discriminate].
  - cbn [bind]. unfold on_test_response.
    destruct (Z.eqb (status_code r) 200) eqn:St.
    + apply Z.eqb_eq in St.
      destruct (json r) as [e|result] eqn:J.
      * split; [do 2 eexists; split; [reflexivity | discriminate]|].
        split; [discriminate | intros (r' & d & [= <-] & _ & H); congruence].
      * destruct result;
          try (split; [do 2 eexists; split; [reflexivity | discriminate]|];
               split; [discriminate | intros (r' & d' & [= <-] & _ & H); congruence]).
        split; [do 2 eexists; split; reflexivity|].
        split; [intros _; eauto | reflexivity].
    + split; [do 2 eexists; split; [reflexivity | discriminate]|].
      apply Z.eqb_neq in St.
      split; [discriminate | intros (r' & d & [= <-] & H & _); contradiction].
Qed.

(** X14: [validate_connection] sends exactly one request, the [Hello] chat
    payload with the 10 second timeout.  When the request raises, or the
    body of a 200 reply cannot be decoded, the message is
    [Connection failed: <detail>]; when the status is not 200 it is
    [HTTP <status>: <body>]. *)
Theorem X14_connection_test_messages (self : ATCMessageProcessor) (w : world) :
  snd (validate_connection self w)
  = World (wire w)
          (sent w ++ [Request (ollama_url self)
                              (PDict [("model", PStr (model self));
                                      ("messages",
                                       PList [PDict [("role", PStr "user");
                                                     ("content", PStr "Hello")]]);
                                      ("stream", PBool false)])
                              [("Content-Type", "application/json")] 10])%list
  /\ (forall e,
         wire w (sent w) (probe_request self) = inl e
         \/ (exists r, wire w (sent w) (probe_request self) = inr r
                       /\ status_code r = 200%Z /\ json r = inl e) ->
         fst (validate_connection self w)
         = PDict [("success", PBool false);
                  ("message", PStr ("Connection failed: " ++ str_e e))])
  /\ (forall r,
         wire w (sent w) (probe_request self) = inr r ->
         status_code r <> 200%Z ->
         fst (validate_connection self w)
         = PDict [("success", PBool false);
                  ("message",
                   PStr ("HTTP " ++ str_of_int (status_code r) ++ ": " ++ text r))]).
Proof.
  rewrite validate_unfold. cbn [fst snd]. split; [reflexivity|]. split.
  - intros e [Hw | (r & Hw & Hst & Hj)]; rewrite Hw; [reflexivity|].
    cbn [bind]. unfold on_test_response. rewrite Hst, Hj. reflexivity.
  - intros r Hw Hst. rewrite Hw. cbn [bind]. unfold on_test_response.
    apply Z.eqb_neq in Hst. rewrite Hst. reflexivity.
Qed.

(** ** The prompt *)

Lemma append_assoc (a b c : string) : (a ++ b) ++ c = a ++ b ++ c.
Proof. induction a as [|x a IH]; simpl; [reflexivity | now rewrite IH]. Qed.

Lemma contains_cons (needle : string) (c : ascii) (s : string) :
  str_contains needle s = true -> str_contains needle (String c s) = true.
Proof. intros H. cbn [str_contains]. rewrite H. apply orb_true_r. Qed.

Lemma contains_append (needle a s : string) :
  str_contains needle s = true -> str_contains needle (a ++ s) = true.
Proof.
  intros H. induction a as [|c a IH]; [exact H|].
  change (String c a ++ s) with (String c (a ++ s)). now apply contains_cons.
Qed.

Lemma append_inv_tail (a b t : string) : a ++ t = b ++ t -> a = b.
Proof.
  intros H.
  assert (Hlen : String.length a = String.length b).
  { apply (f_equal String.length) in H. rewrite !length_append in H. lia. }
  revert b H Hlen. induction a as [|x a IH]; intros [|y b] H Hlen;
    try discriminate; [reflexivity|].
  simpl in H. injection H as -> H. f_equal. apply IH; [exact H|].
  simpl in Hlen. lia.
Qed.

Lemma append_inv_head (h a b : string) : h ++ a = h ++ b -> a = b.
Proof.
  induction h as [|c h IH]; intros H; [exact H|].
  simpl in H. injection H as H. auto.
Qed.

(** The prompt is the text before the message, the message, the start of
    the sender line, the sender type, and the rest. *)
Lemma prompt_shape (message sender_type : string) :
  generate_classification_prompt message sender_type
  = prompt_before_message ++ message ++ (dquote ++ nl ++ "Sender Type: ")
    ++ sender_type ++ prompt_after_sender sender_type.
Proof.
  unfold prompt_after_sender.
  let h := eval vm_compute in prompt_before_message in
  change prompt_before_message with h.
  let t := eval vm_compute in (drop (134 + 4) (generate_classification_prompt "" "AUTO")) in
  change (drop (134 + 4) (generate_classification_prompt "" "AUTO")) with t.
  let t := eval vm_compute in (drop (134 + 5) (generate_classification_prompt "" "PILOT")) in
  change (drop (134 + 5) (generate_classification_prompt "" "PILOT")) with t.
  let t := eval vm_compute in (drop 134 (generate_classification_prompt "" "")) in
  change (drop 134 (generate_classification_prompt "" "")) with t.
  unfold generate_classification_prompt.
  destruct (String.eqb sender_type "AUTO");
    [|destruct (String.eqb sender_type "PILOT")];
    unfold join_lines; cbn [String.concat]; unfold nl, dquote; cbn [append];
    rewrite !append_assoc; reflexivity.
Qed.

Lemma prompt_tail_occurs (needle message sender_type : string) :
  str_contains needle (prompt_after_sender sender_type) = true ->
  occurs_in needle (generate_classification_prompt message sender_type).
Proof.
  intros H. apply str_contains_occurs. rewrite prompt_shape.
  now do 4 apply contains_append.
Qed.

(** X15: the prompt carries the message between double quotes and the
    sender type, both as they were passed, and asks for each of the five
    tags the parser looks for at the start of a line. *)
Theorem X15_prompt_carries_message_and_tags (message sender_type : string) :
  occurs_in ("Message: " ++ dquote ++ message ++ dquote ++ nl
             ++ "Sender Type: " ++ sender_type ++ nl)
            (generate_classification_prompt message sender_type)
  /\ forall key tag stop,
      In (key, (tag, stop)) scanners ->
      occurs_in (nl ++ tag ++ " [")
                (generate_classification_prompt message sender_type).
Proof.
  split.
  - rewrite prompt_shape.
    exists (take 109 prompt_before_message), (drop 1 (prompt_after_sender sender_type)).
    replace (prompt_after_sender sender_type)
      with (nl ++ drop 1 (prompt_after_sender sender_type)) at 1
      by (unfold prompt_after_sender;
          destruct (String.eqb sender_type "AUTO");
          [|destruct (String.eqb sender_type "PILOT")]; reflexivity).
    change prompt_before_message
      with (take 109 prompt_before_message ++ "Message: " ++ dquote) at 1.
    rewrite !append_assoc. reflexivity.
  - unfold scanners. cbn [In].
    intros key tag stop [S|[S|[S|[S|[S|[]]]]]]; injection S as _ <- _;
      apply prompt_tail_occurs; unfold prompt_after_sender;
      destruct (String.eqb sender_type "AUTO");
      [|destruct (String.eqb sender_type "PILOT")| |destruct (String.eqb sender_type "PILOT")
       | |destruct (String.eqb sender_type "PILOT")| |destruct (String.eqb sender_type "PILOT")
       | |destruct (String.eqb sender_type "PILOT")];
      vm_compute; reflexivity.
Qed.

(** X16: a sender type other than [AUTO] and [PILOT], whatever its
    spelling, is given the instructions written for ATC, while the
    [Sender Type:] line shows it as it was passed. *)
Theorem X16_other_sender_types_read_as_atc (message sender_type : string) :
  sender_type <> "AUTO" -> sender_type <> "PILOT" ->
  occurs_in (nl ++ "1. This message is from ATC (Air Traffic Control)" ++ nl)
            (generate_classification_prompt message sender_type)
  /\ occurs_in (nl ++ "4. Provide appropriate PILOT response to this ATC message" ++ nl)
               (generate_classification_prompt message sender_type)
  /\ occurs_in (nl ++ "Sender Type: " ++ sender_type ++ nl)
               (generate_classification_prompt message sender_type).
Proof.
  intros Ha Hp. apply String.eqb_neq in Ha, Hp.
  assert (Htail : prompt_after_sender sender_type
                  = drop 134 (generate_classification_prompt "" ""))
    by (unfold prompt_after_sender; now rewrite Ha, Hp).
  split; [|split].
  - apply prompt_tail_occurs. rewrite Htail. vm_compute. reflexivity.
  - apply prompt_tail_occurs. rewrite Htail. vm_compute. reflexivity.
  - rewrite prompt_shape, Htail.
    exists (prompt_before_message ++ message ++ dquote),
           (drop 135 (generate_classification_prompt "" "")).
    change (drop 134 (generate_classification_prompt "" ""))
      with (nl ++ drop 135 (generate_classification_prompt "" "")).
    rewrite !append_assoc. reflexivity.
Qed.

Lemma X16_other_sender_types_read_as_atc_witness :
  "pilot" <> "AUTO" /\ "pilot" <> "PILOT"
  /\ occurs_in (nl ++ "1. This message is from ATC (Air Traffic Control)" ++ nl)
               (generate_classification_prompt "Mayday" "pilot").
Proof.
  assert (Ha : "pilot" <> "AUTO") by discriminate.
  assert (Hp : "pilot" <> "PILOT") by discriminate.
  split; [exact Ha|]. split; [exact Hp|].
  exact (proj1 (@X16_other_sender_types_read_as_atc "Mayday" "pilot" Ha Hp)).
Defined.

(** X17: for one sender type, two messages that give the same prompt are
    the same message. *)
Theorem X17_prompt_injective_in_message (m1 m2 sender_type : string) :
  generate_classification_prompt m1 sender_type
  = generate_classification_prompt m2 sender_type ->
  m1 = m2.
Proof.
  rewrite !prompt_shape. intros H.
  apply append_inv_head in H. exact (append_inv_tail _ _ _ H).
Qed.

Lemma X17_prompt_injective_in_message_witness :
  generate_classification_prompt "Mayday" "PILOT"
  = generate_classification_prompt "Mayday" "PILOT"
  /\ "Mayday" = "Mayday".
Proof.
  split; [reflexivity|].
  exact (@X17_prompt_injective_in_message "Mayday" "Mayday" "PILOT" eq_refl).
Defined.
